(** * ai-blueprint-boilerplate: the generation scripts, verified

    A shallow embedding of the executable parts of the repository:
    - the token generator behind [npm run generate:tokens]
      (the script bundled in [src/tokens/index.ts]),
    - the component generator behind [npm run generate:components],
    - the token-fallback expression that the coding standards prescribe
      for every component,
    together with the two pipeline stages that the repository only
    describes (dependency ordering and name sanitisation).

    Scripts are programs over a process state (the files below the project
    root, the calls to [fs.writeFileSync] so far, the console); a JavaScript
    expression that may throw evaluates to a [Result]. *)

From stdpp Require Import gmap strings list pretty.

Set Warnings "-register-all".

Local Open Scope string_scope.

(** The line feed that separates the lines of every template literal. *)
Definition nl : string := String (Ascii.ascii_of_nat 10) EmptyString.

(** A template literal, given line by line. *)
Definition template (lines : list string) : string := String.concat nl lines.

(** ** JavaScript values and the operations the scripts use on them *)
Module Js.

(** What [JSON.parse] can return.  A number is carried as the text that
    [Number.prototype.toString] gives for it: the scripts only ever
    interpolate numbers and test them for truthiness, and [0] and [-0]
    both print as [0]. *)
Inductive JSON : Type :=
| JNull
| JBool (b : bool)
| JNumber (shown : string)
| JString (s : string)
| JArray (items : list JSON)
| JObject (members : list (string * JSON)).

(** The exceptions the scripts can meet; [SystemError] is what [fs]
    throws (ENOENT and the like). *)
Inductive Error : Type :=
| SyntaxError
| TypeError
| SystemError.

Inductive Result (A : Type) : Type :=
| Ok (a : A)
| Throw (e : Error).
Global Arguments Ok {A} a.
Global Arguments Throw {A} e.

Global Instance Result_ret : MRet Result := fun _ a => Ok a.
Global Instance Result_bind : MBind Result := fun _ _ f r =>
  match r with
  | Ok a => f a
  | Throw e => Throw e
  end.

(** [xs.map(f)] for a callback that may throw: elements are visited from
    index 0 upwards and the first exception ends the call. *)
Fixpoint mapM {A B : Type} (f : A -> Result B) (xs : list A) : Result (list B) :=
  match xs with
  | [] => Ok []
  | x :: rest =>
      match f x with
      | Throw e => Throw e
      | Ok y =>
          match mapM f rest with
          | Throw e => Throw e
          | Ok ys => Ok (y :: ys)
          end
      end
  end.

(** The own property [k] of an object given by its members in source
    order ([JSON.parse] text or an object literal); of two members with
    one key the later one wins. *)
Fixpoint own {V : Type} (members : list (string * V)) (k : string) : option V :=
  match members with
  | [] => None
  | (k', v) :: rest =>
      match own rest k with
      | Some w => Some w
      | None => if String.eqb k' k then Some v else None
      end
  end.

(** [v.k] for a value that is neither [null] nor [undefined]; [None] is
    [undefined].  The keys the scripts read ([colors], [name], [value],
    [map], ...) are inherited by no prototype with a JSON value, so only
    own members of objects answer; [length] is answered by arrays (the
    scripts read it of nothing else). *)
Definition get_field (v : JSON) (k : string) : option JSON :=
  match v with
  | JObject members => own members k
  | JArray items =>
      if String.eqb k "length" then Some (JNumber (pretty (length items))) else None
  | _ => None
  end.

(** [v.k] where [v] may be [undefined] or [null]: both throw. *)
Definition Get (v : option JSON) (k : string) : Result (option JSON) :=
  match v with
  | None | Some JNull => Throw TypeError
  | Some w => Ok (get_field w k)
  end.

(** Truthiness, as tested by [||] and [?:]. *)
Definition truthy (v : option JSON) : bool :=
  match v with
  | None | Some JNull => false
  | Some (JBool b) => b
  | Some (JNumber shown) => negb (String.eqb shown "0")
  | Some (JString s) => negb (String.eqb s EmptyString)
  | Some (JArray _) | Some (JObject _) => true
  end.

(** [Array.prototype.join] with a comma, over elements already
    converted; the first conversion that throws ends it. *)
Fixpoint join_comma (parts : list (Result string)) : Result string :=
  match parts with
  | [] => Ok EmptyString
  | [part] => part
  | part :: rest =>
      match part with
      | Throw e => Throw e
      | Ok s =>
          match join_comma rest with
          | Throw e => Throw e
          | Ok r => Ok (s +:+ "," +:+ r)
          end
      end
  end.

(** [ToString], which every [${...}] of a template literal applies.
    An array joins its elements with a comma, printing [null] as nothing;
    an object prints as [[object Object]] unless it has an own member
    [toString], which no JSON value can make callable:
    [OrdinaryToPrimitive] then finds no primitive and throws. *)
Fixpoint ToString (v : JSON) : Result string :=
  match v with
  | JNull => Ok "null"
  | JBool true => Ok "true"
  | JBool false => Ok "false"
  | JNumber shown => Ok shown
  | JString s => Ok s
  | JArray items =>
      join_comma (map (fun x => match x with
                                | JNull => Ok EmptyString
                                | _ => ToString x
                                end) items)
  | JObject members =>
      match own members "toString" with
      | Some _ => Throw TypeError
      | None => Ok "[object Object]"
      end
  end.

(** Induction over JSON values, through arrays and objects. *)
Fixpoint JSON_nested_ind (P : JSON → Prop)
    (Hnull : P JNull) (Hbool : ∀ b, P (JBool b))
    (Hnumber : ∀ shown, P (JNumber shown)) (Hstring : ∀ s, P (JString s))
    (Harray : ∀ items, Forall P items → P (JArray items))
    (Hobject : ∀ members, Forall (fun m => P m.2) members → P (JObject members))
    (v : JSON) : P v :=
  let rec := JSON_nested_ind P Hnull Hbool Hnumber Hstring Harray Hobject in
  match v with
  | JNull => Hnull
  | JBool b => Hbool b
  | JNumber shown => Hnumber shown
  | JString s => Hstring s
  | JArray items =>
      Harray items
        ((fix all (xs : list JSON) : Forall P xs :=
            match xs with
            | [] => @List.Forall_nil _ P
            | x :: rest => @List.Forall_cons _ P x rest (rec x) (all rest)
            end) items)
  | JObject members =>
      Hobject members
        ((fix all (ms : list (string * JSON)) : Forall (fun m => P m.2) ms :=
            match ms with
            | [] => @List.Forall_nil _ (fun m => P m.2)
            | m :: rest => @List.Forall_cons _ (fun m => P m.2) m rest (rec m.2) (all rest)
            end) members)
  end.

(** [`${e}`] for an expression whose value may be [undefined]. *)
Definition interpolate (v : option JSON) : Result string :=
  match v with
  | None => Ok "undefined"
  | Some w => ToString w
  end.

(** [`${t.k}`] *)
Definition show_field (t : JSON) (k : string) : Result string :=
  v ← Get (Some t) k; interpolate v.

(** [xs.map(f)] where [xs] is any value: only an array has a callable
    [map]. *)
Definition map_call (xs : option JSON) (f : JSON -> Result string)
  : Result (list string) :=
  match xs with
  | Some (JArray items) => mapM f items
  | _ => Throw TypeError
  end.

End Js.

(** ** The Node.js process a script runs in *)
Module Node.
Import Js.

(** The text of a JSON document on disk, up to what [JSON.parse] makes of
    it: a syntax error or a value. *)
Inductive FileText : Type :=
| NotJson
| JsonText (v : JSON).

(** The project directory ([rootDir]): [design-tokens.json], which the
    scripts only read, and every other file by its path below the root. *)
Record Disk : Type := {
  design_tokens : option FileText;
  files : gmap string string
}.

(** How a process ends: by running off the end of the script, by
    [process.exit], or by an exception nobody catches. *)
Inductive Outcome : Type :=
| Completed
| Exit (code : Z)
| Uncaught (e : Error).

(** Node exits with 1 on an uncaught exception. *)
Definition exit_code (o : Outcome) : Z :=
  match o with
  | Completed => 0
  | Exit code => code
  | Uncaught _ => 1
  end.

(** A process under way: the disk, the [fs.writeFileSync] calls made so
    far (oldest first) and the two console streams. *)
Record Process : Type := {
  disk : Disk;
  written : list (string * string);
  stdout : list string;
  stderr : list string
}.

Definition start (d : Disk) : Process :=
  {| disk := d; written := []; stdout := []; stderr := [] |}.

Inductive Step (A : Type) : Type :=
| Next (a : A)
| Halt (o : Outcome).
Global Arguments Next {A} a.
Global Arguments Halt {A} o.

(** A statement sequence: it transforms the process and either goes on
    with a value or halts; what it did to the process before halting
    stays done. *)
Definition Script (A : Type) : Type := Process -> Process * Step A.

Global Instance Script_ret : MRet Script := fun _ a p => (p, Next a).
Global Instance Script_bind : MBind Script := fun _ _ f m p =>
  match m p with
  | (p', Next a) => f a p'
  | (p', Halt o) => (p', Halt o)
  end.

(** Evaluate an expression; an exception is not caught anywhere. *)
Definition eval {A : Type} (r : Result A) : Script A := fun p =>
  match r with
  | Ok a => (p, Next a)
  | Throw e => (p, Halt (Uncaught e))
  end.

Definition existsSync_tokensFile : Script bool := fun p =>
  (p, Next (bool_decide (is_Some (design_tokens (disk p))))).

(** [JSON.parse(fs.readFileSync(tokensFile, 'utf-8'))] *)
Definition parse_tokensFile : Script JSON := fun p =>
  match design_tokens (disk p) with
  | Some (JsonText v) => (p, Next v)
  | Some NotJson => (p, Halt (Uncaught SyntaxError))
  | None => (p, Halt (Uncaught SystemError))
  end.

(** [fs.writeFileSync(path.join(rootDir, file), content)]; the directory
    is taken to exist and to be writable. *)
Definition writeFileSync (file content : string) : Script unit := fun p =>
  ({| disk := {| design_tokens := design_tokens (disk p);
                 files := <[file := content]> (files (disk p)) |};
      written := written p ++ [(file, content)];
      stdout := stdout p;
      stderr := stderr p |}, Next tt).

Definition console_log (line : string) : Script unit := fun p =>
  ({| disk := disk p; written := written p;
      stdout := stdout p ++ [line]; stderr := stderr p |}, Next tt).

Definition console_error (line : string) : Script unit := fun p =>
  ({| disk := disk p; written := written p;
      stdout := stdout p; stderr := stderr p ++ [line] |}, Next tt).

Definition process_exit {A : Type} (code : Z) : Script A := fun p =>
  (p, Halt (Exit code)).

(** One run of a script from a disk: the process at the end and how it
    ended. *)
Definition run (script : Script unit) (d : Disk) : Process * Outcome :=
  match script (start d) with
  | (p, Next _) => (p, Completed)
  | (p, Halt o) => (p, o)
  end.

End Node.

(** ** [npm run generate:tokens] *)
Module GenerateTokens.
Import Js Node.

Definition colors_ts : string := "src/tokens/colors.ts".
Definition typography_ts : string := "src/tokens/typography.ts".
Definition spacing_ts : string := "src/tokens/spacing.ts".
Definition effects_ts : string := "src/tokens/effects.ts".

(** [t => `  '${t.name}': '${t.value}',`], the callback of the colors,
    spacing and effects modules *)
Definition value_entry (t : JSON) : Result string :=
  name ← show_field t "name";
  value ← show_field t "value";
  mret ("  '" +:+ name +:+ "': '" +:+ value +:+ "',").

(** The callback of the typography module. *)
Definition typography_entry (t : JSON) : Result string :=
  name ← show_field t "name";
  fontFamily ← show_field t "fontFamily";
  fontSize ← show_field t "fontSize";
  fontWeight ← show_field t "fontWeight";
  lineHeight ← show_field t "lineHeight";
  mret (template [
    "  '" +:+ name +:+ "': {";
    "    fontFamily: '" +:+ fontFamily +:+ "',";
    "    fontSize: '" +:+ fontSize +:+ "',";
    "    fontWeight: " +:+ fontWeight +:+ ",";
    "    lineHeight: '" +:+ lineHeight +:+ "',";
    "  },"]).

(** The template shared by the four modules: the banner, the exported
    constant with one entry per line, the exported key type. *)
Definition module_text (title const type : string) (entries : list string) : string :=
  template [
    "/**";
    " * " +:+ title +:+ " Tokens";
    " * Generated from design-tokens.json";
    " * DO NOT EDIT: This file is auto-generated";
    " */";
    EmptyString;
    "export const " +:+ const +:+ " = {";
    String.concat nl entries;
    "} as const;";
    EmptyString;
    "export type " +:+ type +:+ " = keyof typeof " +:+ const +:+ ";";
    EmptyString].

Definition colorsContent (tokens : JSON) : Result string :=
  colors ← Get (Some tokens) "colors";
  entries ← map_call colors value_entry;
  mret (module_text "Color" "colors" "ColorToken" entries).

Definition typographyContent (tokens : JSON) : Result string :=
  typography ← Get (Some tokens) "typography";
  entries ← map_call typography typography_entry;
  mret (module_text "Typography" "typography" "TypographyToken" entries).

(** [tokens.spacing || []] *)
Definition spacingTokens (tokens : JSON) : Result (option JSON) :=
  spacing ← Get (Some tokens) "spacing";
  mret (if truthy spacing then spacing else Some (JArray [])).

Definition spacingContent (tokens : JSON) : Result string :=
  spacing ← spacingTokens tokens;
  entries ← map_call spacing value_entry;
  mret (module_text "Spacing" "spacing" "SpacingToken" entries).

Definition effectsContent (tokens : JSON) : Result string :=
  effects ← Get (Some tokens) "effects";
  entries ← map_call effects value_entry;
  mret (module_text "Effect" "effects" "EffectToken" entries).

(** [`✓ Generated ${file} (${xs.length} tokens)`] *)
Definition generated_line (file : string) (xs : Result (option JSON)) : Result string :=
  v ← xs;
  len ← Get v "length";
  count ← interpolate len;
  mret ("✓ Generated " +:+ file +:+ " (" +:+ count +:+ " tokens)").

(** The script, statement by statement. *)
Definition script : Script unit :=
  found ← existsSync_tokensFile;
  (if found : bool then mret tt
   else console_error "❌ design-tokens.json not found" ;; process_exit 1) ;;
  tokens ← parse_tokensFile;
  content ← eval (colorsContent tokens);
  writeFileSync colors_ts content ;;
  line ← eval (generated_line "colors.ts" (Get (Some tokens) "colors"));
  console_log line ;;
  content ← eval (typographyContent tokens);
  writeFileSync typography_ts content ;;
  line ← eval (generated_line "typography.ts" (Get (Some tokens) "typography"));
  console_log line ;;
  content ← eval (spacingContent tokens);
  writeFileSync spacing_ts content ;;
  line ← eval (generated_line "spacing.ts" (spacingTokens tokens));
  console_log line ;;
  content ← eval (effectsContent tokens);
  writeFileSync effects_ts content ;;
  line ← eval (generated_line "effects.ts" (Get (Some tokens) "effects"));
  console_log line ;;
  console_log (nl +:+ "✅ Token generation complete!").

Definition generate_tokens (d : Disk) : Process * Outcome := run script d.

(** *** The script as a plan

    The four blocks of the script differ in a file name, three words of
    the template, the array they read and the callback they map. *)
Record Category : Type := {
  file : string;
  title : string;
  const : string;
  type : string;
  source : JSON → Result (option JSON);
  entry : JSON → Result string
}.

Definition color : Category :=
  {| file := "colors.ts"; title := "Color"; const := "colors"; type := "ColorToken";
     source := fun tokens => Get (Some tokens) "colors"; entry := value_entry |}.
Definition typography : Category :=
  {| file := "typography.ts"; title := "Typography"; const := "typography";
     type := "TypographyToken";
     source := fun tokens => Get (Some tokens) "typography"; entry := typography_entry |}.
Definition spacing : Category :=
  {| file := "spacing.ts"; title := "Spacing"; const := "spacing"; type := "SpacingToken";
     source := spacingTokens; entry := value_entry |}.
Definition effect : Category :=
  {| file := "effects.ts"; title := "Effect"; const := "effects"; type := "EffectToken";
     source := fun tokens => Get (Some tokens) "effects"; entry := value_entry |}.

(** In the order of the script. *)
Definition categories : list Category := [color; typography; spacing; effect].

Definition path_of (c : Category) : string := "src/tokens/" +:+ file c.

Definition content_of (c : Category) (tokens : JSON) : Result string :=
  xs ← source c tokens;
  entries ← map_call xs (entry c);
  mret (module_text (title c) (const c) (type c) entries).

(** What a run on [tokens] does, block after block: the files it writes,
    the lines it logs, and whether it goes on.  A block that throws ends
    the plan with everything before it done. *)
Fixpoint plan (tokens : JSON) (cs : list Category)
  : list (string * string) * list string * Step unit :=
  match cs with
  | [] => ([], [], Next tt)
  | c :: rest =>
      match content_of c tokens with
      | Throw e => ([], [], Halt (Uncaught e))
      | Ok text =>
          match generated_line (file c) (source c tokens) with
          | Throw e => ([(path_of c, text)], [], Halt (Uncaught e))
          | Ok line =>
              let '(ws, outs, r) := plan tokens rest in
              ((path_of c, text) :: ws, line :: outs, r)
          end
      end
  end.

(** The files after a sequence of [fs.writeFileSync] calls. *)
Definition apply_writes (ws : list (string * string)) (fs : gmap string string)
  : gmap string string :=
  foldl (fun m w => <[w.1 := w.2]> m) fs ws.

(** The run that the plan predicts. *)
Definition planned (d : Disk) : Process * Outcome :=
  match design_tokens d with
  | None =>
      ({| disk := d; written := []; stdout := [];
          stderr := ["❌ design-tokens.json not found"] |}, Exit 1)
  | Some NotJson => (start d, Uncaught SyntaxError)
  | Some (JsonText tokens) =>
      let '(ws, outs, r) := plan tokens categories in
      ({| disk := {| design_tokens := design_tokens d;
                     files := apply_writes ws (files d) |};
          written := ws;
          stdout := match r with
                    | Next _ => (outs ++ [nl +:+ "✅ Token generation complete!"])%list
                    | Halt _ => outs
                    end;
          stderr := [] |},
       match r with
       | Next _ => Completed
       | Halt o => o
       end)
  end.

(** The inputs on which the run stops before its first write: no token
    file, a token file that is not JSON, or tokens whose colours cannot be
    rendered. *)
Definition fails_before_writing (d : Disk) : Prop :=
  match design_tokens d with
  | None | Some NotJson => True
  | Some (JsonText tokens) => ∃ e, colorsContent tokens = Throw e
  end.

(** The first exception that rendering the modules of [cs] meets. *)
Fixpoint first_failure (tokens : JSON) (cs : list Category) : option Error :=
  match cs with
  | [] => None
  | c :: rest =>
      match content_of c tokens with
      | Throw e => Some e
      | Ok _ => first_failure tokens rest
      end
  end.

(** The inputs that succeed: a token file that parses and whose four
    modules can all be rendered. *)
Definition renders (d : Disk) : Prop :=
  ∃ tokens, design_tokens d = Some (JsonText tokens) ∧
            Forall (fun c => ∃ text, content_of c tokens = Ok text) categories.

(** Modelled from the spec: the token document the loader accepts, a
    check that the sources do not contain: four named arrays whose
    records each carry a [name] and a [value]. *)
Definition conforms (tokens : JSON) : bool :=
  forallb (fun key =>
             match get_field tokens key with
             | Some (JArray items) =>
                 forallb (fun t => match t with
                                   | JObject members =>
                                       bool_decide (is_Some (own members "name"))
                                       && bool_decide (is_Some (own members "value"))
                                   | _ => false
                                   end) items
             | _ => false
             end)
          ["colors"; "typography"; "spacing"; "effects"].

End GenerateTokens.

(** ** [npm run generate:components] *)
Module GenerateComponents.
Import Node.

(** The script prints its notice and ends: it opens no file. *)
Definition script : Script unit :=
  console_log "📦 Component generation" ;;
  console_log (nl +:+ "This script would generate component stubs from screen exports.") ;;
  console_log "Currently implemented in bootstrap.js for Bootstrap mode." ;;
  console_log (nl +:+ "For Screen Export mode, this would:") ;;
  console_log "1. Read screen-export.json" ;;
  console_log "2. Generate screen component files" ;;
  console_log "3. Map component instances to catalog references" ;;
  console_log (nl +:+ "To be implemented in future iterations.").

Definition generate_components (d : Disk) : Process * Outcome := run script d.

(** [needle] occurs in [s]. *)
Fixpoint mentions (needle s : string) : bool :=
  String.prefix needle s ||
  match s with
  | EmptyString => false
  | String _ rest => mentions needle rest
  end.

(** The console lines of a run that report a [ManualEditConflict] for the
    file [path]. *)
Definition conflict_reports (path : string) (p : Process) : list string :=
  filter (fun line => mentions "ManualEditConflict" line && mentions path line = true)
         (stdout p ++ stderr p)%list.

End GenerateComponents.

(** ** The token fallback of the coding standards

    [const backgroundColor = styles.backgroundColor?.tokenName
       ? colors[styles.backgroundColor.tokenName]
       : styles.backgroundColor?.value || colors.default;] *)
Module TokenFallback.
Import Js.

(** The object a token module exports, by its members in source order:
    token names bound to their values. *)
Definition TokenModule : Type := list (string * string).

(** A value of the expression: [undefined], a value that came with the
    styles, a token's string, or a member that every object inherits. *)
Inductive Value : Type :=
| Undefined
| Literal (v : JSON)
| Token (value : string)
| Inherited (key : string).

(** The properties of [Object.prototype] in Node. *)
Definition Object_prototype : list string := [
  "constructor"; "__defineGetter__"; "__defineSetter__"; "hasOwnProperty";
  "__lookupGetter__"; "__lookupSetter__"; "isPrototypeOf";
  "propertyIsEnumerable"; "toString"; "valueOf"; "__proto__";
  "toLocaleString"].

(** [colors[key]] *)
Definition index (colors : TokenModule) (key : string) : Value :=
  match own colors key with
  | Some value => Token value
  | None => if bool_decide (key ∈ Object_prototype) then Inherited key else Undefined
  end.

(** [e?.k]: [undefined] when [e] is [undefined] or [null]. *)
Definition optional (e : option JSON) (k : string) : option JSON :=
  match e with
  | None | Some JNull => None
  | Some w => get_field w k
  end.

Definition backgroundColor (styles : JSON) (colors : TokenModule) : Result Value :=
  bg ← Get (Some styles) "backgroundColor";
  if truthy (optional bg "tokenName") then
    tokenName ← Get bg "tokenName";
    key ← interpolate tokenName;
    mret (index colors key)
  else
    match optional bg "value" with
    | Some v => if truthy (Some v) then mret (Literal v) else mret (index colors "default")
    | None => mret (index colors "default")
    end.

(** A [StyledValue] as the catalog exports it,
    [{ "value": literal, "tokenName": name }]. *)
Definition StyledValue (literal : JSON) (tokenName : string) : JSON :=
  JObject [("value", literal); ("tokenName", JString tokenName)].

End TokenFallback.

(** ** The pipeline stages that the repository only describes

    Dependency ordering and name sanitisation are done by the bootstrap
    script, which the generators above refer to and which is not among the
    sources; both stages are written here after their description. *)
Module Pipeline.

(** *** Catalog *)

(** Modelled from the spec: a child of a catalog entry, literal content or
    a [componentRef] to another entry; the catalog format is not among
    the sources. *)
Inductive Child : Type :=
| Content (text : string)
| ComponentRef (target : string).

(** Modelled from the spec: a catalog entry, reduced to what ordering
    reads: its external name and its children (properties, variants and
    layout play no part). *)
Record CatalogEntry : Type := {
  name : string;
  children : list Child
}.

Global Instance Child_eq_dec : EqDecision Child.
Proof. solve_decision. Defined.
Global Instance CatalogEntry_eq_dec : EqDecision CatalogEntry.
Proof. solve_decision. Defined.

(** The names an entry refers to through [componentRef]. *)
Definition refs (e : CatalogEntry) : list string :=
  omap (fun c => match c with ComponentRef t => Some t | Content _ => None end)
       (children e).

(** Modelled from the spec: the two fatal errors of the taxonomy, absent
    from the sources. *)
Inductive PipelineError : Type :=
| SchemaError (field : string)
| CyclicDependencyError (participants : list string).

(** Modelled from the spec: the loader's check of the catalog, which the
    sources do not contain: every [componentRef] must name an entry of
    the catalog, and the first that does not is reported by its field. *)
Definition load (catalog : list CatalogEntry) : option PipelineError :=
  let known := name <$> catalog in
  match filter (fun r => r ∉ known) (catalog ≫= refs) with
  | [] => None
  | r :: _ => Some (SchemaError ("componentRef " +:+ r))
  end.

(** *** Dependency graph *)

(** Modelled from the spec: the reference graph, absent from the sources.
    There is an edge from [a] to [b] when [a] has a child whose
    [componentRef] is [b]. *)
Definition edge (catalog : list CatalogEntry) (a b : CatalogEntry) : Prop :=
  a ∈ catalog ∧ b ∈ catalog ∧ name b ∈ refs a.

(** A catalog has a cycle when an entry reaches itself along edges. *)
Definition cyclic (catalog : list CatalogEntry) : Prop :=
  ∃ x, tc (edge catalog) x x.

(** Modelled from the spec: the readiness test of the ordering, absent
    from the sources.  An entry can be built once every entry it refers
    to is built. *)
Definition ready (catalog built : list CatalogEntry) (e : CatalogEntry) : bool :=
  forallb (fun d => bool_decide (name d ∈ refs e → d ∈ built)) catalog.

(** Modelled from the spec: ordering by dependency depth, absent from the
    sources.  One layer per round: the pending entries that are ready, in
    catalog order, join the build order. *)
Fixpoint layers (rounds : nat) (catalog pending built : list CatalogEntry)
  : list CatalogEntry * list CatalogEntry :=
  match rounds with
  | O => (pending, built)
  | S n =>
      layers n catalog
        (filter (fun e => ready catalog built e = false) pending)
        (built ++ filter (fun e => ready catalog built e = true) pending)
  end.

(** Modelled from the spec: the entries taking part in a cycle are found
    by reachability, absent from the sources.  The entries that [e]
    reaches in at most [n + 1] edges. *)
Fixpoint reach (n : nat) (catalog : list CatalogEntry) (e : CatalogEntry)
  : list CatalogEntry :=
  let next := filter (fun d => name d ∈ refs e) catalog in
  match n with
  | O => next
  | S m => next ++ (next ≫= reach m catalog)
  end.

(** Modelled from the spec: the dependency graph builder, which the
    sources do not contain.  Leaves first, entries of one depth in the
    order of the catalog; entries that never become ready are left over
    when a cycle exists, and the error names those that lie on one. *)
Definition build_order (catalog : list CatalogEntry)
  : PipelineError + list CatalogEntry :=
  match layers (length catalog) catalog catalog [] with
  | ([], order) => inr order
  | (stuck, _) =>
      inl (CyclicDependencyError
             (name <$> filter (fun e => e ∈ reach (length catalog) catalog e) stuck))
  end.

(** Modelled from the spec: how a run of the pipeline ends, absent from
    the sources. *)
Inductive Status : Type :=
| Succeeded
| Failed (e : PipelineError).

Section Generation.

(** The later stages (token resolution, stub generation and merge),
    as whatever they do to the files given the build order. *)
Variable emit : list CatalogEntry → gmap string string → gmap string string.

(** Modelled from the spec: the control flow of a run, which the
    sources do not contain: load, order, then emit; a stage only sees
    what the stage before it accepted. *)
Definition generate (catalog : list CatalogEntry) (files : gmap string string)
  : gmap string string * Status :=
  match load catalog with
  | Some e => (files, Failed e)
  | None =>
      match build_order catalog with
      | inl e => (files, Failed e)
      | inr order => (emit order files, Succeeded)
      end
  end.

End Generation.

(** *** Naming *)

(** Modelled from the spec: a record of the naming registry, whose code
    is absent from the sources (the variant tag, for which no rule is
    given, is left out). *)
Record NamingAlias : Type := {
  externalName : string;
  codeName : string;
  isExternalLibrary : bool
}.

Record NamingConfig : Type := {
  stripPrefixes : list string;
  externalPatterns : list string
}.

(** The sanitisation rules of the bootstrap workflow. *)
Definition bootstrap_config : NamingConfig :=
  {| stripPrefixes := ["DS"; "Components"; "Primitive"];
     externalPatterns := ["icon/"; "@heroicons/"] |}.

(** Modelled from the spec: the helpers of the four sanitisation rules,
    absent from the sources.  The path segments of a name, split at every
    slash. *)
Fixpoint segments (s : string) : list string :=
  match s with
  | EmptyString => [EmptyString]
  | String c rest =>
      if bool_decide (c = Ascii.ascii_of_nat 47) then EmptyString :: segments rest
      else match segments rest with
           | seg :: more => String c seg :: more
           | [] => [String c EmptyString]
           end
  end.

(** Rule 1: leading segments that are configured prefixes are dropped. *)
Fixpoint strip (prefixes segs : list string) : list string :=
  match segs with
  | seg :: rest => if bool_decide (seg ∈ prefixes) then strip prefixes rest else segs
  | [] => []
  end.

Definition is_alnum (c : Ascii.ascii) : bool :=
  let n := Ascii.nat_of_ascii c in
  (Nat.leb 48 n && Nat.leb n 57) || (Nat.leb 65 n && Nat.leb n 90)
  || (Nat.leb 97 n && Nat.leb n 122).

Definition to_upper (c : Ascii.ascii) : Ascii.ascii :=
  let n := Ascii.nat_of_ascii c in
  if Nat.leb 97 n && Nat.leb n 122 then Ascii.ascii_of_nat (n - 32) else c.

(** Rule 2: PascalCase; every run of other characters starts a word. *)
Fixpoint pascal_from (word_start : bool) (s : string) : string :=
  match s with
  | EmptyString => EmptyString
  | String c rest =>
      if is_alnum c
      then String (if word_start then to_upper c else c) (pascal_from false rest)
      else pascal_from true rest
  end.

Definition pascal (s : string) : string := pascal_from true s.

(** Rule 3: a name under a configured pattern belongs to an external
    library. *)
Definition is_external (cfg : NamingConfig) (ext : string) : bool :=
  existsb (fun pat => String.prefix pat ext) (externalPatterns cfg).

(** Rule 4: the first of [base], [base2], [base3], ... that no alias has. *)
Fixpoint first_free (fuel k : nat) (base : string) (taken : list string) : string :=
  let candidate := base +:+ pretty k in
  match fuel with
  | O => candidate
  | S n => if bool_decide (candidate ∈ taken) then first_free n (S k) base taken
           else candidate
  end.

Definition disambiguate (base : string) (taken : list string) : string :=
  if bool_decide (base ∈ taken) then first_free (length taken) 2 base taken else base.

Definition recorded (registry : list NamingAlias) (ext : string) : option NamingAlias :=
  List.find (fun a => bool_decide (externalName a = ext)) registry.

(** Modelled from the spec: the naming normalizer, which the sources do
    not contain.  A name the registry knows keeps its identifier; a new
    name is sanitised by rules 1 to 4 and recorded at the end of the
    registry, which never loses a record. *)
Definition normalize (cfg : NamingConfig) (registry : list NamingAlias) (ext : string)
  : string * list NamingAlias :=
  match recorded registry ext with
  | Some a => (codeName a, registry)
  | None =>
      let base := pascal (String.concat "/" (strip (stripPrefixes cfg) (segments ext))) in
      let id := disambiguate base (codeName <$> registry) in
      (id, (registry ++ [{| externalName := ext; codeName := id;
                           isExternalLibrary := is_external cfg ext |}])%list)
  end.

(** Modelled from the spec: the registry over a run, absent from the
    sources.  A run names the entries of the catalog in its order,
    starting from the registry it is given and handing on the one it ends
    with. *)
Definition name_all (cfg : NamingConfig) (registry : list NamingAlias)
    (catalog : list string) : list NamingAlias :=
  foldl (fun r ext => (normalize cfg r ext).2) registry catalog.

End Pipeline.


(** ** The variant guard of the coding standards

    [export const Button = ({ variant = 'primary' }: ButtonProps) => {
       if (!['primary', 'secondary', 'ghost'].includes(variant)) {
         console.warn(`Invalid variant: ${variant}. Using default.`);
         variant = 'primary';
       }
       // ...
     };] *)
Module ValidateProps.
Import Js.

Definition variants : list string := ["primary"; "secondary"; "ghost"].

(** [xs.includes(v)] for an array of strings: only a string can be the
    same value as one of its elements. *)
Definition includes (xs : list string) (v : JSON) : bool :=
  match v with
  | JString s => bool_decide (s ∈ xs)
  | _ => false
  end.

(** The guard: the variant the component goes on with and the lines it
    warned.  The default of the parameter replaces [undefined] only. *)
Definition Button_variant (prop : option JSON) : Result (JSON * list string) :=
  let variant := match prop with
                 | None => JString "primary"
                 | Some v => v
                 end in
  if includes variants variant then mret (variant, [])
  else
    shown ← ToString variant;
    mret (JString "primary", ["Invalid variant: " +:+ shown +:+ ". Using default."]).

End ValidateProps.

(** ** Shapes of token documents *)
Module Shapes.
Import Js.

(** A value that is neither an array nor an object. *)
Definition scalar (v : JSON) : bool :=
  match v with
  | JArray _ | JObject _ => false
  | _ => true
  end.

(** A record all of whose members are scalars. *)
Definition flat_record (t : JSON) : bool :=
  match t with
  | JObject members => forallb (fun m => scalar m.2) members
  | _ => false
  end.

(** An array of such records. *)
Definition flat_array (v : option JSON) : bool :=
  match v with
  | Some (JArray items) => forallb flat_record items
  | _ => false
  end.

(** The record [{ "name": n, "value": v }]. *)
Definition named (n v : string) : JSON :=
  JObject [("name", JString n); ("value", JString v)].

End Shapes.

(** ** Inputs used below *)
Module Scenario.
Import Js Node.

(** The token document of the scenario:
    [{colors:[{name:"primary", value:"#3B82F6"}]}]. *)
Definition tokens : JSON :=
  JObject [("colors",
            JArray [JObject [("name", JString "primary");
                             ("value", JString "#3B82F6")]])].

(** A document with all four arrays. *)
Definition full_tokens : JSON :=
  JObject [("colors",
            JArray [JObject [("name", JString "primary"); ("value", JString "#3B82F6")];
                    JObject [("name", JString "secondary"); ("value", JString "#10B981")]]);
           ("typography",
            JArray [JObject [("name", JString "body");
                             ("fontFamily", JString "Inter");
                             ("fontSize", JString "16px");
                             ("fontWeight", JNumber "400");
                             ("lineHeight", JString "24px")]]);
           ("spacing",
            JArray [JObject [("name", JString "sm"); ("value", JString "8px")];
                    JObject [("name", JString "md"); ("value", JString "16px")]]);
           ("effects", JArray [])].

(** A document with all four arrays, one of whose colour records has
    neither a name nor a value. *)
Definition nameless_tokens : JSON :=
  JObject [("colors", JArray [JObject []]);
           ("typography", JArray []);
           ("spacing", JArray []);
           ("effects", JArray [])].

(** The module that the scenario asks for. *)
Definition colors_ts : string :=
  template ["/**";
            " * Color Tokens";
            " * Generated from design-tokens.json";
            " * DO NOT EDIT: This file is auto-generated";
            " */";
            EmptyString;
            "export const colors = {";
            "  'primary': '#3B82F6',";
            "} as const;";
            EmptyString;
            "export type ColorToken = keyof typeof colors;";
            EmptyString].

Definition button_tsx : string := "src/components/Button/Button.tsx".

(** A project after a first generation: the stub of Button has been
    completed by hand, and the catalog has changed since. *)
Definition project (doc : JSON) : Disk :=
  {| design_tokens := Some (JsonText doc);
     files := {[ button_tsx :=
                   template ["import { colors } from '../../tokens';";
                             "export const Button = ({ variant = 'primary', children }) => {";
                             "  // hand-written";
                             "  return <button style={{ color: colors.primary }}>{children}</button>;";
                             "};"];
                 "component-catalog.json" :=
                   "[{name: Button, props: [{name: variant, values: [primary, secondary, ghost]}]}]" ]} |}.

End Scenario.

(** * Properties *)

Import Js Node.

(** A closed decidable proposition, settled by evaluating its decision. *)
Ltac by_computation :=
  match goal with
  | |- ?P => let dec := constr:(_ : Decision P) in
             apply (@bool_decide_unpack P dec); vm_compute; exact I
  end.

(** ** The token generator follows its plan *)
Section TokenGenerator.
Import GenerateTokens.

Lemma generate_tokens_planned (d : Disk) : generate_tokens d = planned d.
Proof.
  destruct d as [[[|tokens]|] fs]; try reflexivity.
  unfold generate_tokens, planned, run, script, categories.
  unfold mbind, Script_bind, mret, Script_ret, existsSync_tokensFile,
    parse_tokensFile, eval, writeFileSync, console_log, start.
  cbn -[colorsContent typographyContent spacingContent effectsContent
        content_of source Get spacingTokens generated_line String.append].
  change (colorsContent tokens) with (content_of color tokens).
  change (typographyContent tokens) with (content_of typography tokens).
  change (spacingContent tokens) with (content_of spacing tokens).
  change (effectsContent tokens) with (content_of effect tokens).
  change (Get (Some tokens) "colors") with (source color tokens).
  change (Get (Some tokens) "typography") with (source typography tokens).
  change (spacingTokens tokens) with (source spacing tokens).
  change (Get (Some tokens) "effects") with (source effect tokens).
  repeat match goal with
  | |- context [match ?r with Ok _ => _ | Throw _ => _ end] =>
      destruct r;
      cbn -[content_of source generated_line String.append];
      try reflexivity
  end.
Qed.

(** The file at [k] after the writes [ws]: the last write to [k], or what
    was there. *)
Lemma lookup_apply_writes ws (fs : gmap string string) k :
  apply_writes ws fs !! k = match own ws k with Some v => Some v | None => fs !! k end.
Proof.
  revert fs; induction ws as [|[k' v] ws IH]; intros fs; [done|].
  change (apply_writes ((k', v) :: ws) fs) with (apply_writes ws (<[k' := v]> fs)).
  rewrite IH; cbn [own]. destruct (own ws k); [done|].
  destruct (String.eqb_spec k' k) as [->|Hne].
  - apply lookup_insert_eq.
  - by apply lookup_insert_ne.
Qed.

Lemma apply_writes_twice ws (fs : gmap string string) :
  apply_writes ws (apply_writes ws fs) = apply_writes ws fs.
Proof.
  apply map_eq; intros k. rewrite !lookup_apply_writes. by destruct (own ws k).
Qed.

Lemma own_None_notin {V} (ws : list (string * V)) k : k ∉ ws.*1 → own ws k = None.
Proof.
  induction ws as [|[k' v] ws IH]; [done|]. cbn [own fmap list_fmap fst].
  intros Hk. apply not_elem_of_cons in Hk as [Hne Hk]. rewrite (IH Hk).
  destruct (String.eqb_spec k' k); congruence.
Qed.

(** A plan writes the modules of its categories, in their order, up to
    the first that fails. *)
Lemma plan_written_prefix tokens cs :
  (plan tokens cs).1.1.*1 `prefix_of` path_of <$> cs.
Proof.
  induction cs as [|c cs IH]; [done|]. cbn [plan].
  destruct (content_of c tokens); [|apply prefix_nil].
  destruct (generated_line _ _).
  - destruct (plan tokens cs) as [[ws outs] r]. cbn in *. by apply prefix_cons.
  - cbn. apply prefix_cons, prefix_nil.
Qed.

(** A module that could be rendered comes from an array, and its log line
    can be printed. *)
Lemma content_of_Ok c tokens text :
  content_of c tokens = Ok text →
  ∃ items entries,
    source c tokens = Ok (Some (JArray items)) ∧
    mapM (entry c) items = Ok entries ∧
    text = module_text (title c) (const c) (type c) entries ∧
    generated_line (file c) (source c tokens)
    = Ok ("✓ Generated " +:+ file c +:+ " (" +:+ pretty (length items) +:+ " tokens)").
Proof.
  unfold content_of, generated_line. destruct (source c tokens) as [xs|]; [|done].
  cbn. destruct xs as [[| | | |items|]|]; try done. cbn.
  destruct (mapM (entry c) items) as [entries|] eqn:Hm; [|done]. cbn.
  intros [= <-]. by exists items, entries.
Qed.

Lemma plan_cons_Throw tokens c cs e :
  content_of c tokens = Throw e →
  plan tokens (c :: cs) = ([], [], Halt (Uncaught e)).
Proof. intros H. cbn [plan]. by rewrite H. Qed.

Lemma plan_cons_Ok tokens c cs text :
  content_of c tokens = Ok text →
  ∃ line,
    plan tokens (c :: cs)
    = ((path_of c, text) :: (plan tokens cs).1.1, line :: (plan tokens cs).1.2,
       (plan tokens cs).2).
Proof.
  intros H. cbn [plan]. rewrite H.
  destruct (content_of_Ok _ _ _ H) as (items & entries & _ & _ & _ & ->).
  eexists. by destruct (plan tokens cs) as [[ws outs] r].
Qed.

(** A plan goes on to the end exactly when every module can be rendered;
    otherwise it halts on an uncaught exception. *)
Lemma plan_Next tokens cs :
  (plan tokens cs).2 = Next tt ↔ Forall (fun c => ∃ text, content_of c tokens = Ok text) cs.
Proof.
  induction cs as [|c cs IH]; [done|].
  rewrite Forall_cons, <- IH.
  destruct (content_of c tokens) as [text|e] eqn:Hc.
  - destruct (plan_cons_Ok _ _ cs _ Hc) as [line ->]. cbn. split; [|by intros [_ ?]].
    intros Hr. split; [by exists text|done].
  - rewrite (plan_cons_Throw _ _ _ _ Hc). cbn. split; [done|]. by intros [[? ?] _].
Qed.




End TokenGenerator.

(** ** Text *)
Section Text.

Lemma append_assoc (a b c : string) : (a +:+ b) +:+ c = a +:+ (b +:+ c).
Proof.
  induction a as [|x a IH]; [done|].
  change (String x ((a +:+ b) +:+ c) = String x (a +:+ (b +:+ c))). by f_equal.
Qed.





End Text.

(** ** Regeneration and the files written by hand *)
Section Regeneration.
Import GenerateTokens GenerateComponents.

(** The component generator changes nothing and only prints its notice. *)
Lemma generate_components_inert (d : Disk) :
  disk (generate_components d).1 = d ∧
  written (generate_components d).1 = [] ∧
  stderr (generate_components d).1 = [] ∧
  (generate_components d).2 = Completed.
Proof. by destruct d. Qed.

Lemma generate_components_reports_nothing (d : Disk) (path : string) :
  conflict_reports path (generate_components d).1 = [].
Proof.
  unfold conflict_reports.
  assert (Hnone : Forall (fun line => mentions "ManualEditConflict" line = false)
                         (stdout (generate_components d).1
                          ++ stderr (generate_components d).1)%list)
    by (destruct d; repeat constructor).
  induction Hnone as [|line rest Hline _ IH]; [done|].
  rewrite filter_cons, Hline. cbn. by rewrite decide_False.
Qed.

(** The token generator touches the four token modules only. *)
Lemma generate_tokens_frame (d : Disk) (path : string) :
  path ∉ path_of <$> categories →
  files (disk (generate_tokens d).1) !! path = files d !! path.
Proof.
  intros Hpath. rewrite generate_tokens_planned. unfold planned.
  destruct (design_tokens d) as [[|tokens]|]; [done| |done].
  pose proof (plan_written_prefix tokens categories) as [rest Hrest].
  destruct (plan tokens categories) as [[ws outs] r]. cbn in *.
  rewrite lookup_apply_writes, own_None_notin; [done|].
  intros Hin. apply Hpath. rewrite Hrest. apply elem_of_app. by left.
Qed.

(** C1, as stated, fails: on a project whose Button stub was completed by
    hand and whose catalog has changed, component generation keeps the
    stub but reports no [ManualEditConflict] for it (the claim asks for
    exactly one). *)
Lemma C1_counterexample_no_conflict_report :
  let d := Scenario.project Scenario.full_tokens in
  let p := (generate_components d).1 in
  ¬ (files (disk p) !! Scenario.button_tsx = files d !! Scenario.button_tsx ∧
     length (conflict_reports Scenario.button_tsx p) = 1).
Proof.
  intros d p [_ Hone]. unfold p in Hone.
  by rewrite generate_components_reports_nothing in Hone.
Qed.

(** C1 (amended): re-running generation leaves every file other than the
    four token modules byte-identical, so a component stub keeps its
    hand-written part whatever the catalog and the tokens have become;
    the token generator writes the token modules only, and the component
    generator writes nothing and reports no [ManualEditConflict]. *)
Theorem regeneration_keeps_component_files (d : Disk) (path : string) :
  path ∉ path_of <$> categories →
  files (disk (generate_tokens d).1) !! path = files d !! path ∧
  disk (generate_components d).1 = d ∧
  written (generate_components d).1 = [] ∧
  conflict_reports path (generate_components d).1 = [].
Proof.
  intros Hpath. split; [by apply generate_tokens_frame|].
  split; [apply generate_components_inert|].
  split; [apply generate_components_inert|].
  apply generate_components_reports_nothing.
Qed.

Lemma regeneration_keeps_component_files_witness :
  let d := Scenario.project Scenario.full_tokens in
  files (disk (generate_tokens d).1) !! Scenario.button_tsx
  = files d !! Scenario.button_tsx ∧
  disk (generate_components d).1 = d ∧
  written (generate_components d).1 = [] ∧
  conflict_reports Scenario.button_tsx (generate_components d).1 = [].
Proof.
  apply (regeneration_keeps_component_files
           (Scenario.project Scenario.full_tokens) Scenario.button_tsx).
  by_computation.
Defined.

End Regeneration.

(** ** What a failing run leaves behind, and what a second run does *)
Section Runs.
Import GenerateTokens.

(** C2, as stated, fails: the scenario's document lacks three of the four
    arrays, the run aborts on it, and yet [colors.ts] has been created. *)
Lemma C2_counterexample_partial_output :
  let d := Scenario.project Scenario.tokens in
  conforms Scenario.tokens = false ∧
  (generate_tokens d).2 = Uncaught TypeError ∧
  files d !! colors_ts = None ∧
  is_Some (files (disk (generate_tokens d).1) !! colors_ts).
Proof. repeat split; try by vm_compute. by_computation. Qed.

(** C2 (amended): the run aborts before any output file is written
    exactly when [design-tokens.json] is missing, is not JSON, or its
    colours cannot be rendered (no [colors] array, a [null] record, ...):
    then, and only then, the exit code is not 0 and no file is created or
    modified.  Nothing validates the document beforehand; a failure in a
    later category comes after the earlier modules were written. *)
Theorem abort_before_first_write (d : Disk) :
  fails_before_writing d ↔
  exit_code (generate_tokens d).2 = 1%Z ∧
  written (generate_tokens d).1 = [] ∧
  disk (generate_tokens d).1 = d.
Proof.
  rewrite generate_tokens_planned. unfold planned, fails_before_writing.
  destruct d as [[[|tokens]|] fs]; cbn [design_tokens]; [done| |done].
  change (colorsContent tokens) with (content_of color tokens).
  unfold categories.
  destruct (content_of color tokens) as [text|e] eqn:Hc.
  - destruct (plan_cons_Ok _ _ [typography; spacing; effect] _ Hc) as [line ->].
    split; [by intros [? ?]|]. by intros (_ & Hw & _).
  - rewrite (plan_cons_Throw _ _ _ _ Hc). split; [done|]. by eexists.
Qed.

Lemma abort_before_first_write_witness :
  let d := {| design_tokens := Some (JsonText (JObject [("typography", JArray [])]));
              files := ∅ |} in
  exit_code (generate_tokens d).2 = 1%Z ∧
  written (generate_tokens d).1 = [] ∧
  disk (generate_tokens d).1 = d.
Proof.
  apply (proj1 (abort_before_first_write
                  {| design_tokens := Some (JsonText (JObject [("typography", JArray [])]));
                     files := ∅ |})).
  exists TypeError. reflexivity.
Defined.

(** C3, as stated, fails: on the full document the second run writes the
    four modules again. *)
Lemma C3_counterexample_second_run_writes :
  let first := generate_tokens (Scenario.project Scenario.full_tokens) in
  let second := generate_tokens (disk first.1) in
  ¬ (disk second.1 = disk first.1 ∧ written second.1 = []).
Proof. intros first second [_ Hw]. by vm_compute in Hw. Qed.

(** C3 (amended): a second run on unchanged inputs leaves every file
    byte-identical; it does so by writing the same modules with the same
    content again, and it logs and ends as the first run did. *)
Theorem second_run_same_bytes (d : Disk) :
  let first := generate_tokens d in
  let second := generate_tokens (disk first.1) in
  disk second.1 = disk first.1 ∧
  written second.1 = written first.1 ∧
  stdout second.1 = stdout first.1 ∧
  stderr second.1 = stderr first.1 ∧
  second.2 = first.2.
Proof.
  cbn zeta. rewrite !generate_tokens_planned.
  destruct d as [[[|tokens]|] fs]; [done| |done].
  unfold planned; cbn [design_tokens files disk fst].
  destruct (plan tokens categories) as [[ws outs] r] eqn:Hplan.
  cbn [design_tokens files disk fst snd written stdout stderr].
  rewrite Hplan. cbn [design_tokens files disk fst snd written stdout stderr].
  by rewrite apply_writes_twice.
Qed.

(** C4: on the token document [{colors:[{name:"primary",
    value:"#3B82F6"}]}] the run leaves, whatever the project held before,
    a module [src/tokens/colors.ts] that exports [colors] with the one
    entry ['primary': '#3B82F6']. *)
Theorem scenario_emits_primary_color (fs : gmap string string) :
  let p := (generate_tokens {| design_tokens := Some (JsonText Scenario.tokens);
                               files := fs |}).1 in
  files (disk p) !! colors_ts = Some Scenario.colors_ts ∧
  Scenario.colors_ts = module_text "Color" "colors" "ColorToken" ["  'primary': '#3B82F6',"] ∧
  written p = [(colors_ts, Scenario.colors_ts)].
Proof.
  cbn zeta. rewrite generate_tokens_planned.
  split; [|split; reflexivity].
  unfold planned; cbn [design_tokens files].
  change (plan Scenario.tokens categories)
    with ([(colors_ts, Scenario.colors_ts)], ["✓ Generated colors.ts (1 tokens)"],
          @Halt unit (Uncaught TypeError)).
  cbn [disk files fst]. by rewrite lookup_apply_writes.
Qed.

End Runs.

(** ** The emitted modules *)
Section Modules.
Import GenerateTokens.

(** Every write of a plan is the rendered module of one of its
    categories. *)
Lemma plan_written_elem tokens cs path text :
  (path, text) ∈ (plan tokens cs).1.1 →
  ∃ c, c ∈ cs ∧ path = path_of c ∧ content_of c tokens = Ok text.
Proof.
  induction cs as [|c cs IH]; [by intros ?%elem_of_nil|].
  destruct (content_of c tokens) as [text'|e] eqn:Hc.
  - destruct (plan_cons_Ok _ _ cs _ Hc) as [line ->]. cbn [fst snd].
    intros [[= -> ->]|Hin]%elem_of_cons.
    + exists c. split; [by left|done].
    + destruct (IH Hin) as (c' & ? & ? & ?). exists c'. split; [by right|done].
  - rewrite (plan_cons_Throw _ _ _ _ Hc). by intros ?%elem_of_nil.
Qed.






End Modules.

(** ** How a run ends *)
Section Endings.
Import GenerateTokens GenerateComponents.

Lemma bind_Throw {A B} (r : Result A) (f : A → Result B) e :
  r ≫= f = Throw e → r = Throw e ∨ ∃ a, r = Ok a ∧ f a = Throw e.
Proof.
  destruct r as [a|e']; intros H; [right; exists a; split; [done|exact H]|left].
  by injection H as ->.
Qed.

(** Interpolation can only fail with a [TypeError]. *)
Lemma join_comma_Throw parts e :
  join_comma parts = Throw e → Throw e ∈ parts.
Proof.
  induction parts as [|part rest IH]; [done|].
  destruct rest as [|part' rest].
  { intros H. change (part = Throw e) in H. subst. by left. }
  change (join_comma (part :: part' :: rest))
    with (match part with
          | Throw e => Throw e
          | Ok s => match join_comma (part' :: rest) with
                    | Throw e => Throw e
                    | Ok r => Ok (s +:+ "," +:+ r)
                    end
          end).
  destruct part; [|intros [= <-]; by left].
  destruct (join_comma (part' :: rest)); [done|].
  intros [= <-]. right. by apply IH.
Qed.

Lemma ToString_Throw v e : ToString v = Throw e → e = TypeError.
Proof.
  revert e. induction v as [| [] | | | items Hall | members _] using JSON_nested_ind;
    intros e; cbn [ToString]; try done.
  - intros Hin%join_comma_Throw. apply list_elem_of_fmap in Hin as (x & Hx & Hin).
    rewrite Forall_forall in Hall. destruct x; try (by eapply Hall); done.
  - by destruct (own members "toString"); [intros [= <-]|].
Qed.

Lemma show_field_Throw t k e : show_field t k = Throw e → e = TypeError.
Proof.
  unfold show_field. intros [H|(v & _ & H)]%bind_Throw.
  - by destruct t; simplify_eq/=.
  - destruct v as [w|]; [by apply ToString_Throw in H|done].
Qed.

Lemma value_entry_Throw t e : value_entry t = Throw e → e = TypeError.
Proof.
  unfold value_entry.
  intros [H|(? & _ & [H|(? & _ & H)]%bind_Throw)]%bind_Throw;
    try (by apply show_field_Throw in H); done.
Qed.

Lemma typography_entry_Throw t e : typography_entry t = Throw e → e = TypeError.
Proof.
  unfold typography_entry.
  intros [H|(? & _ & [H|(? & _ & [H|(? & _ & [H|(? & _ & [H|(? & _ & H)]%bind_Throw)]
               %bind_Throw)]%bind_Throw)]%bind_Throw)]%bind_Throw;
    try (by apply show_field_Throw in H); done.
Qed.

Lemma mapM_Throw {A B} (f : A → Result B) xs e :
  mapM f xs = Throw e → ∃ x, x ∈ xs ∧ f x = Throw e.
Proof.
  induction xs as [|x xs IH]; [done|]. cbn.
  destruct (f x) as [y|e'] eqn:Hx.
  - destruct (mapM f xs); [done|]. intros [= <-].
    destruct IH as (x' & ? & ?); [done|]. exists x'. split; [by right|done].
  - intros [= <-]. exists x. split; [by left|done].
Qed.

(** Rendering a module can only fail with a [TypeError]. *)
Lemma content_of_Throw c tokens e :
  c ∈ categories → content_of c tokens = Throw e → e = TypeError.
Proof.
  intros Hc. unfold content_of.
  intros [H|(xs & _ & [H|(? & _ & H)]%bind_Throw)]%bind_Throw; [| |done].
  - unfold categories in Hc.
    repeat (apply elem_of_cons in Hc as [->|Hc]); [..|by apply elem_of_nil in Hc];
      cbn in H; unfold spacingTokens in H; destruct tokens; by simplify_eq/=.
  - destruct xs as [[| | | |items|]|]; try by simplify_eq/=.
    apply mapM_Throw in H as (t & _ & H).
    unfold categories in Hc.
    repeat (apply elem_of_cons in Hc as [->|Hc]); [..|by apply elem_of_nil in Hc];
      first [by apply value_entry_Throw in H|by apply typography_entry_Throw in H].
Qed.

Lemma plan_outcome tokens cs :
  (plan tokens cs).2 = match first_failure tokens cs with
                       | Some e => Halt (Uncaught e)
                       | None => Next tt
                       end.
Proof.
  induction cs as [|c cs IH]; [done|]. cbn [first_failure].
  destruct (content_of c tokens) as [text|e] eqn:Hc.
  - by destruct (plan_cons_Ok _ _ cs _ Hc) as [line ->].
  - by rewrite (plan_cons_Throw _ _ _ _ Hc).
Qed.

Lemma first_failure_Some tokens cs e :
  first_failure tokens cs = Some e → ∃ c, c ∈ cs ∧ content_of c tokens = Throw e.
Proof.
  induction cs as [|c cs IH]; [done|]. cbn.
  destruct (content_of c tokens) as [text|e'] eqn:Hc.
  - intros (c' & ? & ?)%IH. exists c'. split; [by right|done].
  - intros [= <-]. exists c. split; [by left|done].
Qed.

Lemma first_failure_None tokens cs :
  first_failure tokens cs = None ↔
  Forall (fun c => ∃ text, content_of c tokens = Ok text) cs.
Proof.
  induction cs as [|c cs IH]; [done|]. cbn. rewrite Forall_cons, <- IH.
  destruct (content_of c tokens) as [text|e]; [|by split; [|intros [[? ?] _]]].
  split; [|by intros [_ ?]]. intros H. split; [by exists text|done].
Qed.

Lemma generate_tokens_outcome (d : Disk) :
  (generate_tokens d).2
  = match design_tokens d with
    | None => Exit 1
    | Some NotJson => Uncaught SyntaxError
    | Some (JsonText tokens) =>
        match first_failure tokens categories with
        | Some e => Uncaught e
        | None => Completed
        end
    end.
Proof.
  rewrite generate_tokens_planned. unfold planned.
  destruct (design_tokens d) as [[|tokens]|]; [done| |done].
  pose proof (plan_outcome tokens categories) as Hr.
  destruct (plan tokens categories) as [[ws outs] r]. cbn [snd] in *. subst r.
  by destruct (first_failure tokens categories).
Qed.

(** C9, as stated, fails: a token document that the loader must reject (a
    colour record without name and value) makes the generator exit with
    code 0. *)
Lemma C9_counterexample_malformed_exits_zero :
  let d := {| design_tokens := Some (JsonText Scenario.nameless_tokens); files := ∅ |} in
  conforms Scenario.nameless_tokens = false ∧
  exit_code (generate_tokens d).2 = 0%Z.
Proof. split; by vm_compute. Qed.

(** C9 (amended): the token generator ends with [process.exit(1)] when
    [design-tokens.json] is missing, with an uncaught [SyntaxError] when
    it is not JSON, with the first uncaught exception of rendering
    otherwise, and completes when there is none.  Its exit code is 0
    exactly when the file parses and all four modules can be rendered, and
    1 in every other case; a malformed document that can still be rendered
    is not an error.  The component generator always exits with 0. *)
Theorem exit_code_of_generators (d : Disk) :
  (generate_tokens d).2
  = match design_tokens d with
    | None => Exit 1
    | Some NotJson => Uncaught SyntaxError
    | Some (JsonText tokens) =>
        match first_failure tokens categories with
        | Some e => Uncaught e
        | None => Completed
        end
    end ∧
  (exit_code (generate_tokens d).2 = 0%Z ↔ renders d) ∧
  (exit_code (generate_tokens d).2 = 0%Z ∨ exit_code (generate_tokens d).2 = 1%Z) ∧
  exit_code (generate_components d).2 = 0%Z.
Proof.
  split; [apply generate_tokens_outcome|]. rewrite generate_tokens_outcome.
  split; [|split; [|done]].
  - unfold renders. destruct (design_tokens d) as [[|tokens]|];
      [by split; [|intros (? & ? & _)]| |by split; [|intros (? & ? & _)]].
    destruct (first_failure tokens categories) as [e|] eqn:Hf; cbn [exit_code].
    + split; [done|]. intros (? & [= <-] & H%first_failure_None). congruence.
    + split; [|done]. intros _. exists tokens. split; [done|].
      by apply first_failure_None.
  - destruct (design_tokens d) as [[|tokens]|]; [by right| |by right].
    destruct (first_failure tokens categories); [by right|by left].
Qed.

(** An array that is not there cannot be mapped. *)
Lemma missing_array_Throw tokens key {B} (f : JSON → Result string)
    (g : list string → Result B) :
  get_field tokens key = None →
  (Get (Some tokens) key ≫= fun xs => map_call xs f ≫= g) = Throw TypeError.
Proof. intros H. destruct tokens; cbn in *; try done; by rewrite H. Qed.

Lemma generate_tokens_written (d : Disk) (tokens : JSON) :
  design_tokens d = Some (JsonText tokens) →
  written (generate_tokens d).1 = (plan tokens categories).1.1.
Proof.
  intros Hd. rewrite generate_tokens_planned. unfold planned. rewrite Hd.
  by destruct (plan tokens categories) as [[ws outs] r].
Qed.

(** C10: of the four arrays only [spacing] may be absent, in which case
    its module is emitted without entries.  A document without [colors],
    [typography] or [effects] ends the run with an uncaught [TypeError];
    without [colors] nothing has been written by then, without
    [typography] the colors module has, and without [effects] the colors,
    typography and spacing modules have. *)
Theorem only_spacing_is_guarded (d : Disk) (tokens : JSON) :
  design_tokens d = Some (JsonText tokens) →
  (tokens ≠ JNull → get_field tokens "spacing" = None →
   spacingContent tokens = Ok (module_text "Spacing" "spacing" "SpacingToken" [])) ∧
  (∀ key, key ∈ ["colors"; "typography"; "effects"] → get_field tokens key = None →
          (generate_tokens d).2 = Uncaught TypeError) ∧
  (get_field tokens "colors" = None → written (generate_tokens d).1 = []) ∧
  (get_field tokens "typography" = None →
   ∀ c, colorsContent tokens = Ok c →
        written (generate_tokens d).1 = [(colors_ts, c)]) ∧
  (get_field tokens "effects" = None →
   ∀ c t s, colorsContent tokens = Ok c → typographyContent tokens = Ok t →
            spacingContent tokens = Ok s →
            written (generate_tokens d).1
            = [(colors_ts, c); (typography_ts, t); (spacing_ts, s)]).
Proof.
  intros Hd. rewrite (generate_tokens_written d tokens Hd), generate_tokens_outcome, Hd.
  assert (Hcolor : get_field tokens "colors" = None →
                   content_of color tokens = Throw TypeError)
    by apply missing_array_Throw.
  assert (Htypography : get_field tokens "typography" = None →
                        content_of typography tokens = Throw TypeError)
    by apply missing_array_Throw.
  assert (Heffect : get_field tokens "effects" = None →
                    content_of effect tokens = Throw TypeError)
    by apply missing_array_Throw.
  repeat split.
  - intros Hnull Hs. unfold spacingContent, spacingTokens.
    destruct tokens; cbn in *; try done; by rewrite Hs.
  - intros key Hkey Hmissing.
    destruct (first_failure tokens categories) as [e|] eqn:Hf.
    + apply first_failure_Some in Hf as (c & Hc & Hf).
      by rewrite (content_of_Throw c tokens e Hc Hf).
    + rewrite first_failure_None in Hf. unfold categories in Hf.
      apply Forall_cons in Hf as [[? Hc] Hf].
      apply Forall_cons in Hf as [[? Ht] Hf].
      apply Forall_cons in Hf as [_ Hf].
      apply Forall_cons in Hf as [[? He] _].
      repeat (apply elem_of_cons in Hkey as [->|Hkey]); [..|by apply elem_of_nil in Hkey].
      * rewrite Hcolor in Hc; done.
      * rewrite Htypography in Ht; done.
      * rewrite Heffect in He; done.
  - intros Hmissing. unfold categories. by rewrite (plan_cons_Throw _ _ _ _ (Hcolor Hmissing)).
  - intros Hmissing c Hc. unfold categories.
    destruct (plan_cons_Ok tokens color [typography; spacing; effect] c Hc) as [? ->].
    by rewrite (plan_cons_Throw _ _ _ _ (Htypography Hmissing)).
  - intros Hmissing c t s Hc Ht Hs. unfold categories.
    destruct (plan_cons_Ok tokens color [typography; spacing; effect] c Hc) as [? ->].
    destruct (plan_cons_Ok tokens typography [spacing; effect] t Ht) as [? ->].
    destruct (plan_cons_Ok tokens spacing [effect] s Hs) as [? ->].
    by rewrite (plan_cons_Throw _ _ _ _ (Heffect Hmissing)).
Qed.

Lemma only_spacing_is_guarded_witness :
  let d := Scenario.project Scenario.tokens in
  (generate_tokens d).2 = Uncaught TypeError ∧
  written (generate_tokens d).1 = [(colors_ts, Scenario.colors_ts)].
Proof.
  pose proof (only_spacing_is_guarded (Scenario.project Scenario.tokens)
                Scenario.tokens eq_refl) as (_ & Hfails & _ & Hcolors & _).
  split.
  - apply (Hfails "typography"); [by_computation|reflexivity].
  - apply Hcolors; reflexivity.
Defined.

End Endings.

(** ** Token before literal *)
Section Fallback.
Import TokenFallback.




End Fallback.

(** ** Dependency cycles *)
Section Cycles.
Import Pipeline.

Variable catalog : list CatalogEntry.

(** An entry on a cycle has a successor on a cycle. *)
Lemma on_cycle_successor x :
  tc (edge catalog) x x → ∃ z, edge catalog x z ∧ tc (edge catalog) z z.
Proof.
  intros Hx. inversion Hx as [? ? Hedge|? y ? Hedge Hback]; subst.
  - by exists x.
  - exists y. split; [done|]. by eapply tc_r.
Qed.

(** While no entry on a cycle is built, none becomes ready. *)
Lemma on_cycle_not_ready built x :
  (∀ y, tc (edge catalog) y y → y ∉ built) →
  tc (edge catalog) x x → ready catalog built x = false.
Proof.
  intros Hbuilt Hx. destruct (on_cycle_successor x Hx) as (z & (_ & Hz & Href) & Hcycle).
  unfold ready. apply not_true_is_false. rewrite forallb_forall.
  intros Hall. specialize (Hall z (proj1 (list_elem_of_In _ _) Hz)).
  apply bool_decide_eq_true in Hall. by apply (Hbuilt z Hcycle), Hall.
Qed.

(** However many rounds are played, the entries on a cycle stay pending
    and out of the build order. *)
Lemma layers_keep_cycles rounds pending built x :
  (∀ y, tc (edge catalog) y y → y ∉ built) →
  tc (edge catalog) x x → x ∈ pending →
  x ∈ (layers rounds catalog pending built).1.
Proof.
  revert pending built. induction rounds as [|n IH]; intros pending built Hbuilt Hx Hin; [done|].
  cbn [layers]. apply IH; [|done|].
  - intros y Hy [Hold|Hnew%list_elem_of_filter]%elem_of_app; [by eapply Hbuilt|].
    destruct Hnew as [Hready _]. by rewrite on_cycle_not_ready in Hready.
  - apply list_elem_of_filter. split; [by apply on_cycle_not_ready|done].
Qed.

Lemma cyclic_build_order :
  cyclic catalog → ∃ names, build_order catalog = inl (CyclicDependencyError names).
Proof.
  intros [x Hx]. unfold build_order.
  assert (Hin : x ∈ catalog).
  { destruct (on_cycle_successor x Hx) as (? & (? & _) & _). done. }
  pose proof (layers_keep_cycles (length catalog) catalog [] x) as Hstuck.
  destruct (layers (length catalog) catalog catalog []) as [[|e stuck] order].
  - exfalso. eapply not_elem_of_nil, Hstuck; [|done..].
    intros y _. apply not_elem_of_nil.
  - by eexists.
Qed.

End Cycles.

Section CycleRejection.
Import Pipeline.

(** C5: a catalog that the loader accepts and that contains a dependency
    cycle makes the run fail with [CyclicDependencyError]; whatever the
    later stages would emit, no file is written, and no build order, not
    even a partial one, is produced. *)
Theorem cycle_is_rejected
    (emit : list CatalogEntry → gmap string string → gmap string string)
    (catalog : list CatalogEntry) (files : gmap string string) :
  load catalog = None →
  cyclic catalog →
  ∃ names, generate emit catalog files = (files, Failed (CyclicDependencyError names)) ∧
           build_order catalog = inl (CyclicDependencyError names).
Proof.
  intros Hload [names Hcycle]%cyclic_build_order. exists names.
  unfold generate. by rewrite Hload, Hcycle.
Qed.

Lemma cycle_is_rejected_witness :
  let catalog := [ {| name := "X"; children := [ComponentRef "Y"] |};
                   {| name := "Y"; children := [Content "label"; ComponentRef "X"] |} ] in
  ∃ names,
    generate (fun _ _ => ∅) catalog {[ "README.md" := "kept" ]}
    = ({[ "README.md" := "kept" ]}, Failed (CyclicDependencyError names)) ∧
    build_order catalog = inl (CyclicDependencyError names).
Proof.
  apply (cycle_is_rejected (fun _ _ => ∅)
           [ {| name := "X"; children := [ComponentRef "Y"] |};
             {| name := "Y"; children := [Content "label"; ComponentRef "X"] |} ]).
  - reflexivity.
  - exists {| name := "X"; children := [ComponentRef "Y"] |}.
    apply tc_l with {| name := "Y"; children := [Content "label"; ComponentRef "X"] |};
      [|apply tc_once]; repeat split; by_computation.
Defined.

End CycleRejection.

(** ** Stable names *)
Section Naming.
Import Pipeline.

Variable cfg : NamingConfig.

Lemma recorded_app registry more ext :
  recorded (registry ++ more) ext
  = match recorded registry ext with
    | Some a => Some a
    | None => recorded more ext
    end.
Proof.
  unfold recorded. induction registry as [|a registry IH]; [done|]. cbn.
  by destruct (bool_decide (externalName a = ext)).
Qed.

(** A name the registry knows is answered from the registry, which stays
    as it is. *)
Lemma normalize_known registry ext a :
  recorded registry ext = Some a → normalize cfg registry ext = (codeName a, registry).
Proof. intros H. unfold normalize. by rewrite H. Qed.

(** After a name has been normalized the registry knows it, under the
    identifier that was answered. *)
Lemma normalize_records registry ext :
  ∃ a, recorded (normalize cfg registry ext).2 ext = Some a ∧
       codeName a = (normalize cfg registry ext).1.
Proof.
  unfold normalize. destruct (recorded registry ext) as [a|] eqn:Hrec.
  - by exists a.
  - eexists. cbn [fst snd]. rewrite recorded_app, Hrec. unfold recorded. cbn.
    by rewrite bool_decide_eq_true_2.
Qed.

(** Normalizing any name leaves what the registry knows untouched. *)
Lemma normalize_keeps registry ext other a :
  recorded registry ext = Some a → recorded (normalize cfg registry other).2 ext = Some a.
Proof.
  intros H. unfold normalize. destruct (recorded registry other); [done|].
  cbn [snd]. by rewrite recorded_app, H.
Qed.

Lemma name_all_keeps registry catalog ext a :
  recorded registry ext = Some a → recorded (name_all cfg registry catalog) ext = Some a.
Proof.
  revert registry. induction catalog as [|other catalog IH]; intros registry H; [done|].
  apply IH. by apply normalize_keeps.
Qed.

Lemma name_all_app registry names more :
  name_all cfg registry (names ++ more) = name_all cfg (name_all cfg registry names) more.
Proof. apply foldl_app. Qed.

(** C6: the normalizer answers a name it has answered before with the
    same identifier and leaves the registry as it is; and once a run has
    named an entry, every later run that starts from the registry the
    first one left gives that entry the identifier it got, wherever the
    entry stands in either catalog and whatever else the catalogs
    contain. *)
Theorem naming_is_stable (registry : list NamingAlias) (ext : string)
    (before after before' : list string) :
  normalize cfg (normalize cfg registry ext).2 ext = normalize cfg registry ext ∧
  (normalize cfg
     (name_all cfg (name_all cfg registry (before ++ ext :: after)) before') ext).1
  = (normalize cfg (name_all cfg registry before) ext).1.
Proof.
  split.
  - destruct (normalize_records registry ext) as (a & Hrec & Hid).
    rewrite (normalize_known _ _ _ Hrec), Hid. by destruct (normalize cfg registry ext).
  - rewrite name_all_app.
    destruct (normalize_records (name_all cfg registry before) ext) as (a & Hrec & <-).
    change (name_all cfg (name_all cfg registry before) (ext :: after))
      with (name_all cfg (normalize cfg (name_all cfg registry before) ext).2 after).
    by rewrite (normalize_known _ _ a) by by do 2 apply name_all_keeps.
Qed.

End Naming.

(** ** Worked examples *)
Section Examples.
Import GenerateTokens Pipeline.

Example full_run_log :
  stdout (generate_tokens (Scenario.project Scenario.full_tokens)).1
  = ["✓ Generated colors.ts (2 tokens)";
     "✓ Generated typography.ts (1 tokens)";
     "✓ Generated spacing.ts (2 tokens)";
     "✓ Generated effects.ts (0 tokens)";
     nl +:+ "✅ Token generation complete!"].
Proof. reflexivity. Qed.

Example missing_file_run :
  generate_tokens {| design_tokens := None; files := ∅ |}
  = ({| disk := {| design_tokens := None; files := ∅ |};
        written := []; stdout := [];
        stderr := ["❌ design-tokens.json not found"] |}, Exit 1).
Proof. reflexivity. Qed.

Example typography_entry_text :
  typography_entry (JObject [("name", JString "body"); ("fontFamily", JString "Inter");
                             ("fontSize", JString "16px"); ("fontWeight", JNumber "400");
                             ("lineHeight", JArray [JNumber "1"; JNull; JString "5"])])
  = Ok (template ["  'body': {";
                  "    fontFamily: 'Inter',";
                  "    fontSize: '16px',";
                  "    fontWeight: 400,";
                  "    lineHeight: '1,,5',";
                  "  },"]).
Proof. reflexivity. Qed.

Example build_order_leaves_first :
  let entry n rs := {| name := n; children := ComponentRef <$> rs |} in
  build_order [entry "Dialog" ["Card"; "Button"]; entry "Card" ["Button"; "Input"];
               entry "Button" []; entry "Input" []]
  = inr [entry "Button" []; entry "Input" []; entry "Card" ["Button"; "Input"];
         entry "Dialog" ["Card"; "Button"]].
Proof. reflexivity. Qed.

Example build_order_names_the_cycle :
  let entry n rs := {| name := n; children := ComponentRef <$> rs |} in
  build_order [entry "X" ["Y"]; entry "Y" ["X"]; entry "Z" ["X"]; entry "W" []]
  = inl (CyclicDependencyError ["X"; "Y"]).
Proof. reflexivity. Qed.

Example registry_after_a_run :
  codeName <$> name_all bootstrap_config []
    ["DS/Components/Button/Primary"; "button-primary"; "icon/arrow-left";
     "DS/Components/Button/Primary"]
  = ["ButtonPrimary"; "ButtonPrimary2"; "IconArrowLeft"].
Proof. reflexivity. Qed.

End Examples.

(** * Further properties of the generators *)

(** ** Order, inputs and log of a token run *)
Section RunShape.
Import GenerateTokens.

(** The modules are written in the order of the script and the run stops
    at the first that fails: the paths written are always an initial
    segment of colors, typography, spacing, effects. *)
Theorem written_paths_in_script_order (d : Disk) :
  (written (generate_tokens d).1).*1 `prefix_of` path_of <$> categories.
Proof.
  rewrite generate_tokens_planned. unfold planned.
  destruct (design_tokens d) as [[|tokens]|]; [apply prefix_nil| |apply prefix_nil].
  pose proof (plan_written_prefix tokens categories) as Hprefix.
  by destruct (plan tokens categories) as [[ws outs] r].
Qed.

(** What a run writes, prints and how it ends depends on
    [design-tokens.json] alone: the other files of the project, stale
    token modules included, have no influence. *)
Theorem run_ignores_other_files (d1 d2 : Disk) :
  design_tokens d1 = design_tokens d2 →
  written (generate_tokens d1).1 = written (generate_tokens d2).1 ∧
  stdout (generate_tokens d1).1 = stdout (generate_tokens d2).1 ∧
  stderr (generate_tokens d1).1 = stderr (generate_tokens d2).1 ∧
  (generate_tokens d1).2 = (generate_tokens d2).2.
Proof.
  intros Heq. rewrite !generate_tokens_planned. unfold planned. rewrite Heq.
  destruct (design_tokens d2) as [[|tokens]|]; [done| |done].
  by destruct (plan tokens categories) as [[ws outs] r].
Qed.

Lemma run_ignores_other_files_witness :
  let d1 := Scenario.project Scenario.full_tokens in
  let d2 := {| design_tokens := Some (JsonText Scenario.full_tokens); files := ∅ |} in
  written (generate_tokens d1).1 = written (generate_tokens d2).1 ∧
  stdout (generate_tokens d1).1 = stdout (generate_tokens d2).1 ∧
  stderr (generate_tokens d1).1 = stderr (generate_tokens d2).1 ∧
  (generate_tokens d1).2 = (generate_tokens d2).2.
Proof.
  apply (run_ignores_other_files
           (Scenario.project Scenario.full_tokens)
           {| design_tokens := Some (JsonText Scenario.full_tokens); files := ∅ |}).
  reflexivity.
Defined.






End RunShape.

(** ** Records and arrays at the edges *)
Section Edges.
Import GenerateTokens Shapes.

(** [tokens.spacing || []] replaces every falsy value, not only an absent
    one: with [spacing] absent, [null], [false], [0] or the empty string
    the spacing module is emitted without entries, while any other value
    that is not an array ([true], a number, a string, an object) ends
    the rendering with a [TypeError]. *)
Theorem spacing_falsy_or_array (tokens : JSON) :
  tokens ≠ JNull →
  (truthy (get_field tokens "spacing") = false →
   spacingContent tokens = Ok (module_text "Spacing" "spacing" "SpacingToken" [])) ∧
  (truthy (get_field tokens "spacing") = true →
   (∀ items, get_field tokens "spacing" ≠ Some (JArray items)) →
   spacingContent tokens = Throw TypeError).
Proof.
  intros Hnull. unfold spacingContent, spacingTokens.
  assert (Hget : Get (Some tokens) "spacing" = Ok (get_field tokens "spacing"))
    by by destruct tokens.
  rewrite Hget. split.
  - intros Hfalsy. cbn. by rewrite Hfalsy.
  - intros Htruthy Harray. cbn. rewrite Htruthy.
    destruct (get_field tokens "spacing") as [[| | | |items|]|]; try done.
    by destruct (Harray items).
Qed.

Lemma spacing_falsy_or_array_witness :
  spacingContent (JObject [("spacing", JNumber "0")])
  = Ok (module_text "Spacing" "spacing" "SpacingToken" []) ∧
  spacingContent (JObject [("spacing", JString "8px")]) = Throw TypeError.
Proof.
  split.
  - apply (spacing_falsy_or_array (JObject [("spacing", JNumber "0")])); [discriminate|reflexivity].
  - apply (spacing_falsy_or_array (JObject [("spacing", JString "8px")]));
      [discriminate|reflexivity|discriminate].
Defined.

(** A record without [name] and [value] is not rejected: whatever it is
    apart from [null] (an object with other members, a number, a string,
    an array), its entry reads ['undefined': 'undefined'], and a colors
    array of such records is rendered with one such entry per record. *)
Theorem nameless_records_render_undefined (tokens : JSON) (items : list JSON) :
  get_field tokens "colors" = Some (JArray items) →
  Forall (fun t => t ≠ JNull ∧ get_field t "name" = None ∧ get_field t "value" = None) items →
  colorsContent tokens
  = Ok (module_text "Color" "colors" "ColorToken"
          (replicate (length items) "  'undefined': 'undefined',")).
Proof.
  intros Hcolors Hitems. unfold colorsContent.
  assert (Hget : Get (Some tokens) "colors" = Ok (Some (JArray items)))
    by (destruct tokens; by rewrite <- ?Hcolors).
  rewrite Hget. cbn [mbind Result_bind map_call].
  assert (Hmap : mapM value_entry items
                 = Ok (replicate (length items) "  'undefined': 'undefined',")).
  { clear Hcolors Hget.
    induction Hitems as [|t rest (Hnull & Hname & Hvalue) _ IH]; [done|].
    cbn [mapM length replicate]. rewrite IH.
    assert (Hentry : value_entry t = Ok "  'undefined': 'undefined',").
    { unfold value_entry, show_field.
      assert (Hn : Get (Some t) "name" = Ok None) by (destruct t; by rewrite <- ?Hname).
      assert (Hv : Get (Some t) "value" = Ok None) by (destruct t; by rewrite <- ?Hvalue).
      by rewrite Hn, Hv. }
    by rewrite Hentry. }
  by rewrite Hmap.
Qed.

Lemma nameless_records_render_undefined_witness :
  colorsContent (JObject [("colors", JArray [JNumber "5"; JObject [("hex", JString "#fff")]])])
  = Ok (module_text "Color" "colors" "ColorToken"
          ["  'undefined': 'undefined',"; "  'undefined': 'undefined',"]).
Proof.
  apply (nameless_records_render_undefined
           (JObject [("colors", JArray [JNumber "5"; JObject [("hex", JString "#fff")]])])
           [JNumber "5"; JObject [("hex", JString "#fff")]]).
  - reflexivity.
  - repeat constructor; discriminate.
Defined.

Lemma mapM_Throw_elem {A B} (f : A → Result B) xs x e :
  x ∈ xs → f x = Throw e → ∃ e', mapM f xs = Throw e'.
Proof.
  intros Hin Hx. induction xs as [|y xs IH]; [by apply elem_of_nil in Hin|].
  cbn [mapM]. destruct (f y) as [z|e1] eqn:Hy; [|by exists e1].
  apply elem_of_cons in Hin as [->|Hin]; [congruence|].
  destruct (IH Hin) as [e' ->]. by exists e'.
Qed.

(** A [null] among the records of a category makes the whole category
    unrenderable: its module fails with a [TypeError], however many
    well-formed records stand before or after the [null]. *)
Theorem null_record_fails_category (c : Category) (tokens : JSON) (items : list JSON) :
  c ∈ categories →
  source c tokens = Ok (Some (JArray items)) →
  JNull ∈ items →
  content_of c tokens = Throw TypeError.
Proof.
  intros Hc Hsrc Hnull.
  assert (Hentry : entry c JNull = Throw TypeError).
  { unfold categories in Hc.
    repeat (apply elem_of_cons in Hc as [->|Hc]); [done..|by apply elem_of_nil in Hc]. }
  destruct (mapM_Throw_elem _ _ _ _ Hnull Hentry) as [e He].
  assert (Hfail : content_of c tokens = Throw e).
  { unfold content_of. rewrite Hsrc. cbn [mbind Result_bind map_call]. by rewrite He. }
  by rewrite Hfail, (content_of_Throw c tokens e Hc Hfail).
Qed.

Lemma null_record_fails_category_witness :
  content_of color
    (JObject [("colors", JArray [named "primary" "#3B82F6"; JNull; named "text" "#1F2937"])])
  = Throw TypeError.
Proof.
  apply (null_record_fails_category color
           (JObject [("colors", JArray [named "primary" "#3B82F6"; JNull;
                                        named "text" "#1F2937"])])
           [named "primary" "#3B82F6"; JNull; named "text" "#1F2937"]).
  - unfold categories. repeat constructor.
  - reflexivity.
  - apply elem_of_cons; right. apply elem_of_cons; by left.
Defined.

Lemma path_of_inj c c' :
  c ∈ categories → c' ∈ categories → path_of c = path_of c' → c = c'.
Proof.
  unfold categories. intros Hc Hc'.
  repeat (apply elem_of_cons in Hc as [->|Hc]); [..|by apply elem_of_nil in Hc];
    repeat (apply elem_of_cons in Hc' as [->|Hc']); try (by apply elem_of_nil in Hc');
    try done; by vm_compute.
Qed.

(** When a category cannot be rendered the run ends with an uncaught
    [TypeError], nothing is written to that category's module, and the
    module keeps whatever content it had before the run: a failed run
    leaves a stale file in place. *)
Theorem failed_category_stays_stale (d : Disk) (tokens : JSON) (c : Category) (e : Error) :
  design_tokens d = Some (JsonText tokens) →
  c ∈ categories →
  content_of c tokens = Throw e →
  (generate_tokens d).2 = Uncaught TypeError ∧
  (path_of c ∉ (written (generate_tokens d).1).*1) ∧
  files (disk (generate_tokens d).1) !! path_of c = files d !! path_of c.
Proof.
  intros Hd Hc Hfail.
  assert (Hnot : path_of c ∉ (plan tokens categories).1.1.*1).
  { intros ((path & text) & Hpath & Hin)%list_elem_of_fmap. cbn in Hpath. subst path.
    destruct (plan_written_elem _ _ _ _ Hin) as (c' & Hc' & Heq & Hok).
    rewrite <- (path_of_inj c c' Hc Hc' Heq) in Hok. congruence. }
  split; [|split].
  - rewrite generate_tokens_outcome, Hd.
    destruct (first_failure tokens categories) as [e'|] eqn:Hf.
    + apply first_failure_Some in Hf as (c' & Hc' & Hf).
      by rewrite (content_of_Throw c' tokens e' Hc' Hf).
    + rewrite first_failure_None, Forall_forall in Hf.
      destruct (Hf c Hc) as [text Htext]. congruence.
  - by rewrite (generate_tokens_written d tokens Hd).
  - rewrite generate_tokens_planned. unfold planned. rewrite Hd.
    destruct (plan tokens categories) as [[ws outs] r]. cbn [fst snd disk files] in *.
    by rewrite lookup_apply_writes, own_None_notin.
Qed.

Lemma failed_category_stays_stale_witness :
  let d := {| design_tokens := Some (JsonText Scenario.tokens);
              files := {[ typography_ts := "export const typography = {} as const;" ]} |} in
  (generate_tokens d).2 = Uncaught TypeError ∧
  (path_of typography ∉ (written (generate_tokens d).1).*1) ∧
  files (disk (generate_tokens d).1) !! path_of typography = files d !! path_of typography.
Proof.
  apply (failed_category_stays_stale
           {| design_tokens := Some (JsonText Scenario.tokens);
              files := {[ typography_ts := "export const typography = {} as const;" ]} |}
           Scenario.tokens typography TypeError).
  - reflexivity.
  - unfold categories. repeat constructor.
  - reflexivity.
Defined.

End Edges.

(** ** Documents that always succeed, and quotes *)
Section Rendering.
Import GenerateTokens Shapes.

Lemma scalar_ToString v : scalar v = true → ∃ s, ToString v = Ok s.
Proof. destruct v as [|[]| | | |]; try done; by eexists. Qed.

Lemma own_Some_elem {V} (ms : list (string * V)) k v :
  own ms k = Some v → ∃ k', (k', v) ∈ ms.
Proof.
  induction ms as [|[k' v'] ms IH]; [done|]. cbn [own].
  destruct (own ms k) as [w|].
  - intros [= ->]. destruct IH as [k'' ?]; [done|]. exists k''. by right.
  - destruct (String.eqb k' k); [|done]. intros [= ->]. exists k'. by left.
Qed.

Lemma flat_show_field t k : flat_record t = true → ∃ s, show_field t k = Ok s.
Proof.
  destruct t as [| | | | |ms]; try done. cbn [flat_record]. intros Hflat.
  unfold show_field. cbn. destruct (own ms k) as [v|] eqn:Hown; [|by eexists].
  destruct (own_Some_elem _ _ _ Hown) as [k' Hin].
  rewrite forallb_forall in Hflat.
  apply (scalar_ToString v), (Hflat (k', v)). by apply list_elem_of_In.
Qed.

Lemma flat_entry c t :
  c ∈ categories → flat_record t = true → ∃ line, entry c t = Ok line.
Proof.
  intros Hc Hflat.
  assert (Hvalue : ∃ line, value_entry t = Ok line).
  { unfold value_entry.
    destruct (flat_show_field t "name" Hflat) as [? ->].
    destruct (flat_show_field t "value" Hflat) as [? ->]. by eexists. }
  assert (Htypography : ∃ line, typography_entry t = Ok line).
  { unfold typography_entry.
    destruct (flat_show_field t "name" Hflat) as [? ->].
    destruct (flat_show_field t "fontFamily" Hflat) as [? ->].
    destruct (flat_show_field t "fontSize" Hflat) as [? ->].
    destruct (flat_show_field t "fontWeight" Hflat) as [? ->].
    destruct (flat_show_field t "lineHeight" Hflat) as [? ->]. by eexists. }
  unfold categories in Hc.
  repeat (apply elem_of_cons in Hc as [->|Hc]); [done..|by apply elem_of_nil in Hc].
Qed.

Lemma mapM_Ok {A B} (f : A → Result B) xs :
  Forall (fun x => ∃ y, f x = Ok y) xs → ∃ ys, mapM f xs = Ok ys.
Proof.
  induction 1 as [|x xs [y Hy] _ [ys IH]]; [by eexists|].
  cbn [mapM]. rewrite Hy, IH. by eexists.
Qed.

Lemma flat_array_content c tokens xs :
  c ∈ categories → source c tokens = Ok xs → flat_array xs = true →
  ∃ text, content_of c tokens = Ok text.
Proof.
  intros Hc Hsrc. unfold content_of. rewrite Hsrc.
  destruct xs as [[| | | |items|]|]; try done. cbn [flat_array]. intros Hflat.
  destruct (mapM_Ok (entry c) items) as [entries Hentries].
  { rewrite forallb_forall in Hflat. apply Forall_forall. intros t Ht.
    apply (flat_entry c t Hc), Hflat. by apply list_elem_of_In. }
  cbn [mbind Result_bind map_call]. rewrite Hentries. by eexists.
Qed.

(** A sufficient condition for success: when the document is an object
    whose [colors], [typography] and [effects] are arrays of records with
    scalar members only, and whose [spacing] is such an array or falsy,
    the run completes with exit code 0; records may lack any key and may
    carry members of any scalar kind. *)
Theorem flat_document_completes (d : Disk) (ms : list (string * JSON)) :
  design_tokens d = Some (JsonText (JObject ms)) →
  flat_array (own ms "colors") = true →
  flat_array (own ms "typography") = true →
  flat_array (own ms "effects") = true →
  truthy (own ms "spacing") = false ∨ flat_array (own ms "spacing") = true →
  (generate_tokens d).2 = Completed ∧ exit_code (generate_tokens d).2 = 0%Z.
Proof.
  intros Hd Hcolors Htypography Heffects Hspacing.
  assert (Hdone : (generate_tokens d).2 = Completed); [|by rewrite Hdone].
  rewrite generate_tokens_outcome, Hd.
  assert (Hall : first_failure (JObject ms) categories = None); [|by rewrite Hall].
  apply first_failure_None. unfold categories.
  repeat apply Forall_cons_2; [..|done].
  - by apply (flat_array_content color _ (own ms "colors")); [repeat constructor|..].
  - by apply (flat_array_content typography _ (own ms "typography")); [repeat constructor|..].
  - destruct Hspacing as [Hfalsy|Hflat].
    + apply (flat_array_content spacing _ (Some (JArray []))); [repeat constructor| |done].
      cbn. by rewrite Hfalsy.
    + apply (flat_array_content spacing _ (own ms "spacing")); [repeat constructor| |done].
      cbn. by destruct (own ms "spacing") as [[| | | |items|]|].
  - by apply (flat_array_content effect _ (own ms "effects")); [repeat constructor|..].
Qed.

Lemma flat_document_completes_witness :
  let d := Scenario.project Scenario.full_tokens in
  (generate_tokens d).2 = Completed ∧ exit_code (generate_tokens d).2 = 0%Z.
Proof.
  apply (flat_document_completes (Scenario.project Scenario.full_tokens)
           [("colors",
             JArray [JObject [("name", JString "primary"); ("value", JString "#3B82F6")];
                     JObject [("name", JString "secondary"); ("value", JString "#10B981")]]);
            ("typography",
             JArray [JObject [("name", JString "body");
                              ("fontFamily", JString "Inter");
                              ("fontSize", JString "16px");
                              ("fontWeight", JNumber "400");
                              ("lineHeight", JString "24px")]]);
            ("spacing",
             JArray [JObject [("name", JString "sm"); ("value", JString "8px")];
                     JObject [("name", JString "md"); ("value", JString "16px")]]);
            ("effects", JArray [])]);
    try reflexivity.
  right. reflexivity.
Defined.

Lemma length_append (a b : string) :
  String.length (a +:+ b) = String.length a + String.length b.
Proof.
  induction a as [|x a IH]; [done|].
  change (S (String.length (a +:+ b)) = S (String.length a + String.length b)).
  by rewrite IH.
Qed.

(** Names and values are copied between the quotes as they are, with no
    escaping: a quote inside a name ends the key early, so that two
    different records give the same entry. *)
Theorem quotes_are_not_escaped (a b c : string) :
  named (a +:+ "': '" +:+ b) c ≠ named a (b +:+ "': '" +:+ c) ∧
  value_entry (named (a +:+ "': '" +:+ b) c) = value_entry (named a (b +:+ "': '" +:+ c)) ∧
  value_entry (named a (b +:+ "': '" +:+ c))
  = Ok ("  '" +:+ a +:+ "': '" +:+ b +:+ "': '" +:+ c +:+ "',").
Proof.
  split; [|split].
  - intros [= Hname _]. apply (f_equal String.length) in Hname.
    rewrite !length_append in Hname. cbn in Hname. lia.
  - change (Ok ("  '" +:+ (a +:+ "': '" +:+ b) +:+ "': '" +:+ c +:+ "',")
            = Ok ("  '" +:+ a +:+ "': '" +:+ (b +:+ "': '" +:+ c) +:+ "',")).
    by rewrite !append_assoc.
  - change (Ok ("  '" +:+ a +:+ "': '" +:+ (b +:+ "': '" +:+ c) +:+ "',")
            = Ok ("  '" +:+ a +:+ "': '" +:+ b +:+ "': '" +:+ c +:+ "',")).
    by rewrite !append_assoc.
Qed.

End Rendering.

(** ** The fallback in all its branches *)
Section FallbackBranches.
Import TokenFallback Shapes.

(** A token name is never checked against the tokens: with a name other
    than the empty string the result is [colors[tokenName]] whatever it
    is, so a name that no token has yields [undefined], or the member of
    that name that every object inherits, and the literal that came with
    the style is not used. *)
Theorem dangling_token_is_not_replaced
    (styles sv : list (string * JSON)) (tokenName : string) (colors : TokenModule) :
  own styles "backgroundColor" = Some (JObject sv) →
  own sv "tokenName" = Some (JString tokenName) →
  tokenName ≠ EmptyString →
  own colors tokenName = None →
  backgroundColor (JObject styles) colors
  = Ok (if bool_decide (tokenName ∈ Object_prototype) then Inherited tokenName
        else Undefined).
Proof.
  intros Hbg Hname Hne Hcolor. unfold backgroundColor. cbn. rewrite Hbg. cbn.
  rewrite Hname. cbn.
  destruct (String.eqb_spec tokenName EmptyString) as [->|_]; [done|]. cbn.
  unfold index. by rewrite Hcolor.
Qed.

Lemma dangling_token_is_not_replaced_witness :
  backgroundColor
    (JObject [("backgroundColor", StyledValue (JString "#000000") "brand")])
    [("primary", "#3B82F6")]
  = Ok Undefined.
Proof.
  apply (dangling_token_is_not_replaced
           [("backgroundColor", StyledValue (JString "#000000") "brand")]
           [("value", JString "#000000"); ("tokenName", JString "brand")]
           "brand" [("primary", "#3B82F6")]); try reflexivity.
  vm_compute. discriminate.
Defined.



(** The expression throws only on a token name that cannot be turned
    into a property key: for styles that are an object and a token name
    that is a scalar (or absent) it always has a value. *)
Theorem fallback_has_a_value (styles : list (string * JSON)) (colors : TokenModule) :
  (∀ v, optional (own styles "backgroundColor") "tokenName" = Some v → scalar v = true) →
  ∃ r, backgroundColor (JObject styles) colors = Ok r.
Proof.
  intros Hscalar. unfold backgroundColor. cbn -[truthy optional].
  destruct (truthy (optional (own styles "backgroundColor") "tokenName")) eqn:Htruthy.
  - destruct (own styles "backgroundColor") as [bg|]; [|done].
    destruct (optional (Some bg) "tokenName") as [v|] eqn:Hv; [|done].
    specialize (Hscalar v eq_refl).
    assert (Hget : Get (Some bg) "tokenName" = Ok (Some v)).
    { destruct bg; try done; cbn in *; by rewrite Hv. }
    rewrite Hget. cbn -[truthy].
    destruct (scalar_ToString v Hscalar) as [key ->]. by eexists.
  - destruct (optional (own styles "backgroundColor") "value") as [v|]; [|by eexists].
    destruct (truthy (Some v)); by eexists.
Qed.

Lemma fallback_has_a_value_witness :
  ∃ r, backgroundColor
         (JObject [("backgroundColor", StyledValue (JString "#000000") "primary")])
         [("primary", "#3B82F6")] = Ok r.
Proof.
  apply (fallback_has_a_value
           [("backgroundColor", StyledValue (JString "#000000") "primary")]
           [("primary", "#3B82F6")]).
  intros v [= <-]. reflexivity.
Defined.

End FallbackBranches.

(** ** The variant guard *)
Section VariantGuard.
Import ValidateProps.

(** Whatever the caller passes, the component goes on with one of the
    three variants; it warns exactly when it was given something else
    than one of them (a missing prop is not warned about), and then goes
    on with [primary]. *)
Theorem guarded_variant_is_allowed (prop : option JSON) (variant : JSON) (warned : list string) :
  Button_variant prop = Ok (variant, warned) →
  (∃ s, variant = JString s ∧ s ∈ variants) ∧
  (warned = [] ↔ prop = None ∨ prop = Some variant) ∧
  (warned ≠ [] → variant = JString "primary").
Proof.
  unfold Button_variant.
  destruct (includes variants (default (JString "primary") prop)) eqn:Hin.
  - change (match prop with Some v => v | None => JString "primary" end)
      with (default (JString "primary") prop). rewrite Hin. intros [= <- <-].
    split; [|split; [|done]].
    + destruct (default (JString "primary") prop) as [| | |s| |]; try done.
      exists s. split; [done|]. by apply bool_decide_eq_true in Hin.
    + split; [|done]. intros _. destruct prop; [by right|by left].
  - change (match prop with Some v => v | None => JString "primary" end)
      with (default (JString "primary") prop). rewrite Hin.
    destruct (ToString (default (JString "primary") prop)) as [shown|]; [|done].
    intros [= <- <-]. split; [|split; [|done]].
    + exists "primary". split; [done|]. by_computation.
    + split; [done|]. intros [Hp|Hp]; subst prop; by cbn in Hin.
Qed.

Lemma guarded_variant_is_allowed_witness :
  (∃ s, JString "primary" = JString s ∧ s ∈ variants) ∧
  (["Invalid variant: outline. Using default."] = [] ↔
   Some (JString "outline") = None ∨ Some (JString "outline") = Some (JString "primary")) ∧
  (["Invalid variant: outline. Using default."] ≠ [] → JString "primary" = JString "primary").
Proof.
  apply (guarded_variant_is_allowed (Some (JString "outline")) (JString "primary")
           ["Invalid variant: outline. Using default."]).
  reflexivity.
Defined.

(** The guard is idempotent: what it lets through, it lets through again
    unchanged and without a warning. *)
Theorem guarded_variant_is_stable (prop : option JSON) (variant : JSON) (warned : list string) :
  Button_variant prop = Ok (variant, warned) →
  Button_variant (Some variant) = Ok (variant, []).
Proof.
  unfold Button_variant.
  destruct prop as [v|]; [|by intros [= <- <-]].
  destruct (includes variants v) eqn:Hin.
  - intros [= <- <-]. by rewrite Hin.
  - destruct (ToString v); [|done]. by intros [= <- <-].
Qed.

Lemma guarded_variant_is_stable_witness :
  Button_variant (Some (JString "primary")) = Ok (JString "primary", []).
Proof.
  apply (guarded_variant_is_stable (Some JNull) (JString "primary")
           ["Invalid variant: null. Using default."]).
  reflexivity.
Defined.

End VariantGuard.

(** ** Array values and overwritten modules *)
Section Values.
Import GenerateTokens Shapes.

Lemma join_comma_strings (xs : list string) :
  join_comma (Ok <$> xs) = Ok (String.concat "," xs).
Proof.
  induction xs as [|x [|y xs] IH]; [done..|].
  change (join_comma (Ok <$> x :: y :: xs))
    with (match join_comma (Ok <$> y :: xs) with
          | Throw e => Throw e
          | Ok r => Ok (x +:+ "," +:+ r)
          end).
  by rewrite IH.
Qed.

(** A value given as a list of strings (a font stack, say) is emitted as
    its elements joined by commas, without brackets or inner quotes. *)
Theorem array_values_are_comma_joined (n : string) (xs : list string) :
  value_entry (JObject [("name", JString n); ("value", JArray (JString <$> xs))])
  = Ok ("  '" +:+ n +:+ "': '" +:+ String.concat "," xs +:+ "',").
Proof.
  unfold value_entry, show_field. cbn -[String.append String.concat].
  assert (Hparts : map (fun x => match x with JNull => Ok EmptyString | _ => ToString x end)
                       (JString <$> xs) = Ok <$> xs).
  { induction xs as [|x xs IH]; [done|]. cbn. by f_equal. }
  by rewrite Hparts, join_comma_strings.
Qed.

Lemma own_is_Some {V} (ws : list (string * V)) k : k ∈ ws.*1 → is_Some (own ws k).
Proof.
  induction ws as [|[k' v] ws IH]; [by intros ?%elem_of_nil|].
  cbn [fmap list_fmap fst own]. intros [->|Hin]%elem_of_cons.
  - destruct (own ws k'); [done|]. by rewrite String.eqb_refl.
  - by destruct (IH Hin) as [w ->].
Qed.

(** What a run leaves in a module it wrote does not depend on what the
    module held before: two runs on the same [design-tokens.json] from
    different states of the project end with the same content in every
    file they wrote. *)
Theorem written_modules_forget_the_past (d1 d2 : Disk) (path : string) :
  design_tokens d1 = design_tokens d2 →
  path ∈ (written (generate_tokens d1).1).*1 →
  files (disk (generate_tokens d1).1) !! path = files (disk (generate_tokens d2).1) !! path.
Proof.
  intros Heq. rewrite !generate_tokens_planned. unfold planned. rewrite Heq.
  destruct (design_tokens d2) as [[|tokens]|]; [by intros ?%elem_of_nil| |by intros ?%elem_of_nil].
  destruct (plan tokens categories) as [[ws outs] r]. cbn [fst snd written disk files].
  intros [w Hw]%own_is_Some. by rewrite !lookup_apply_writes, Hw.
Qed.

Lemma written_modules_forget_the_past_witness :
  let d1 := {| design_tokens := Some (JsonText Scenario.tokens);
               files := {[ colors_ts := "export const colors = {} as const;" ]} |} in
  let d2 := {| design_tokens := Some (JsonText Scenario.tokens); files := ∅ |} in
  files (disk (generate_tokens d1).1) !! colors_ts
  = files (disk (generate_tokens d2).1) !! colors_ts.
Proof.
  apply (written_modules_forget_the_past
           {| design_tokens := Some (JsonText Scenario.tokens);
              files := {[ colors_ts := "export const colors = {} as const;" ]} |}
           {| design_tokens := Some (JsonText Scenario.tokens); files := ∅ |}
           colors_ts).
  - reflexivity.
  - by_computation.
Defined.

End Values.
